(** * plotly.plotly.plotly: option resolution, figure submission, streams, grids

    A shallow embedding of [src/plotly/plotly/plotly.py].  Python dicts are
    finite maps from strings, exceptions are an explicit result type, and the
    observable effects of a call (warnings, prints, HTTP requests, data sent
    on a stream) are collected in an event log. *)

From Stdlib Require Import ZArith String List Ascii Lia.
From stdpp Require Import base gmap strings list fin_maps pretty.

Open Scope string_scope.
Open Scope list_scope.
Set Warnings "-register-all".

(** ** Python values *)

(** JSON-shaped Python values: what figures, options and server replies are
    made of. *)
Inductive pyval : Type :=
  | PyNone
  | PyBool (b : bool)
  | PyInt (z : Z)
  | PyStr (s : string)
  | PyList (l : list pyval)
  | PyDict (d : gmap string pyval).

(** [bool(v)] *)
Definition truthy (v : pyval) : bool :=
  match v with
  | PyNone => false
  | PyBool b => b
  | PyInt z => negb (Z.eqb z 0)
  | PyStr s => negb (String.eqb s EmptyString)
  | PyList l => negb (Nat.eqb (length l) 0)
  | PyDict d => negb (Nat.eqb (size d) 0)
  end.

(** [v == ''] *)
Definition is_empty_str (v : pyval) : bool :=
  match v with
  | PyStr s => String.eqb s EmptyString
  | _ => false
  end.

(** [len(v)]; [None] stands for the [TypeError] of an unsized value. *)
Definition py_len (v : pyval) : option Z :=
  match v with
  | PyStr s => Some (Z.of_nat (String.length s))
  | PyList l => Some (Z.of_nat (length l))
  | PyDict d => Some (Z.of_nat (size d))
  | _ => None
  end.

(** [self.update(other)]: the keys of [other] win. *)
Definition update (self other : gmap string pyval) : gmap string pyval :=
  other ∪ self.

(** [k in d] for a dict. *)
Definition has_key (k : string) (d : gmap string pyval) : bool :=
  bool_decide (is_Some (d !! k)).

(** ** Option resolution *)

Definition _DEFAULT_PLOT_OPTIONS : gmap string pyval :=
  <["filename" := PyStr "plot from API"]>
  (<["fileopt" := PyStr "new"]>
  (<["world_readable" := PyBool true]>
  (<["auto_open" := PyBool true]>
  (<["validate" := PyBool true]> ∅)))).

(** [_plot_option_logic(plot_options)].  The two module-level mappings the
    function reads, [_DEFAULT_PLOT_OPTIONS] and [_plot_options], are its
    first two arguments. *)
Definition _plot_option_logic_from
    (defaults _plot_options plot_options : gmap string pyval)
    : gmap string pyval :=
  let options := (∅ : gmap string pyval) in
  let options := update options defaults in
  let options := update options _plot_options in
  let options := update options plot_options in
  if has_key "filename" plot_options
     && negb (has_key "fileopt" _plot_options)
     && negb (has_key "fileopt" plot_options)
  then <["fileopt" := PyStr "overwrite"]> options
  else options.

Definition _plot_option_logic
    (_plot_options plot_options : gmap string pyval) : gmap string pyval :=
  _plot_option_logic_from _DEFAULT_PLOT_OPTIONS _plot_options plot_options.

(** ** Exceptions, events and the effect monad *)

Inductive exn : Type :=
  | PlotlyError (msg : pyval)
  | PlotlyAccountError (msg : pyval)
  | PlotlyLocalCredentialsError
  | InputError (msg : string)
  | HTTPError (status : Z)
  | ConnectionError
  | KeyError (key : string)
  | TypeError
  | ValueError
  | AttributeError
  | UnboundLocalError (name : string).

Inductive result (A : Type) : Type :=
  | Return (a : A)
  | Raise (e : exn).
Arguments Return {A} a.
Arguments Raise {A} e.

(** What a call does to the outside world, in order. *)
Inductive event : Type :=
  | Warn (msg : pyval)                   (* warnings.warn(msg) *)
  | Print (v : pyval)                    (* print(v) *)
  | OpenUrl (url : pyval)                (* _open_url(url) *)
  | HttpPost (url : string) (data : pyval) (headers : option (gmap string pyval))
                                         (* requests.post(url, data=, headers=) *)
  | StreamSend (data : string).          (* bytes handed to the streaming socket *)

(** A computation: the events it produced and how it ended. *)
Definition M (A : Type) : Type := (list event * result A)%type.

Definition ret {A} (a : A) : M A := ([], Return a).
Definition raise {A} (e : exn) : M A := ([], Raise e).
Definition tell (ev : event) : M unit := ([ev], Return tt).

Definition log {A} (m : M A) : list event := fst m.
Definition outcome {A} (m : M A) : result A := snd m.

Definition bind {A B} (m : M A) (k : A → M B) : M B :=
  match outcome m with
  | Return a => (log m ++ log (k a), outcome (k a))
  | Raise e => (log m, Raise e)
  end.

Notation "'let*' x ':=' m 'in' k" := (bind m (fun x => k))
  (at level 10, x name, m at level 100, k at level 200).
Notation "'let*' ' p ':=' m 'in' k" := (bind m (fun p => k))
  (at level 10, p strict pattern, m at level 100, k at level 200).
Notation "m '>>' k" := (bind m (fun _ => k))
  (at level 199, right associativity).

(** [try: m except <handled>: h] where [h e = None] lets [e] propagate. *)
Definition try_except {A} (m : M A) (h : exn → option (M A)) : M A :=
  match outcome m with
  | Raise e =>
      match h e with
      | Some k => (log m ++ log k, outcome k)
      | None => m
      end
  | Return _ => m
  end.

(** [for x in l: body(x)] *)
Fixpoint for_each {A} (l : list A) (body : A → M unit) : M unit :=
  match l with
  | [] => ret tt
  | x :: l' => body x >> for_each l' body
  end.

Definition is_post (ev : event) : bool :=
  match ev with HttpPost _ _ _ => true | _ => false end.

(** [d[k]] on a dict *)
Definition getitem (d : gmap string pyval) (k : string) : M pyval :=
  match d !! k with
  | Some v => ret v
  | None => raise (KeyError k)
  end.

(** [k in v] for a string [k] and an arbitrary value [v]. *)
Definition py_in (k : string) (v : pyval) : M bool :=
  match v with
  | PyDict d => ret (has_key k d)
  | PyList l =>
      ret (existsb (fun x => match x with
                             | PyStr s => String.eqb s k
                             | _ => false
                             end) l)
  | PyStr s => ret (match index 0 k s with Some _ => true | None => false end)
  | _ => raise TypeError
  end.

(** [v[k]] for a string [k] and an arbitrary value [v]. *)
Definition py_getitem (v : pyval) (k : string) : M pyval :=
  match v with
  | PyDict d => getitem d k
  | _ => raise TypeError
  end.

(** ** The libraries the module calls *)

(** An HTTP reply as [requests] presents it. *)
Record response : Type := {
  status_code : Z;
  headers : gmap string pyval;
  content : string
}.

(** [r.raise_for_status()] *)
Definition raise_for_status (r : response) : M unit :=
  if (400 <=? status_code r)%Z && (status_code r <? 600)%Z
  then raise (HTTPError (status_code r))
  else ret tt.

(** What the module imports and does not define: [plotly.tools],
    [plotly.version], [json], [requests], [base64] and Python's [str]. *)
Class Externals : Type := {
  (* tools.validate(obj, obj_type): None when it passes, otherwise the text
     of the PlotlyError it raises *)
  tools_validate : pyval → pyval → option string;
  tools_validate_stream : pyval → pyval → option string;
  tools_get_credentials_file : gmap string pyval;
  tools_get_config_file : gmap string pyval;
  tools__replace_newline : gmap string pyval → gmap string pyval;
  version__version__ : string;
  json_dumps : pyval → string;
  (* json.loads(text): None for the ValueError of a malformed text *)
  json_loads : string → option pyval;
  py_str : pyval → string;
  b64encode : string → string;
  (* requests.post: the reply, or the exception of a failed connection *)
  requests_post :
    string → pyval → option (gmap string pyval) → result response;
  (* the grid_url branch of _parse_grid_id_args: urlparse(grid_url).path,
     replace, split and the unpacking of the first two parts *)
  grid_id_of_url : string → result string
}.

Definition post `{Externals} (url : string) (data : pyval)
    (hdrs : option (gmap string pyval)) : M response :=
  ([HttpPost url data hdrs], requests_post url data hdrs).

Definition loads `{Externals} (text : string) : M pyval :=
  match json_loads text with
  | Some v => ret v
  | None => raise ValueError
  end.

(** [a + b] where [a] is read from a dict and [b] is a string literal. *)
Definition py_add_str (a : pyval) (b : string) : M string :=
  match a with
  | PyStr s => ret (s +:+ b)
  | _ => raise TypeError
  end.

(** [for x in v] *)
Definition py_iter (v : pyval) : M (list pyval) :=
  match v with
  | PyList l => ret l
  | PyDict d => ret (map (fun kv => PyStr (fst kv)) (map_to_list d))
  | PyStr s => ret (map (fun c => PyStr (String c EmptyString)) (list_ascii_of_string s))
  | _ => raise TypeError
  end.

(** [v.items()] *)
Definition py_items (v : pyval) : M (list (string * pyval)) :=
  match v with
  | PyDict d => ret (map_to_list d)
  | _ => raise AttributeError
  end.

Definition is_none (v : pyval) : bool :=
  match v with PyNone => true | _ => false end.

Definition newline : string := String (ascii_of_nat 10) EmptyString.

(** ** Module-level state, as the functions that only read it see it *)

Class Globals : Type := {
  _credentials : gmap string pyval;
  _plot_options : gmap string pyval
}.

Section Plotly.
Context `{Ext : Externals} `{G : Globals}.

Definition _get_session_username_and_key : M (pyval * pyval) :=
  let file_credentials := tools_get_credentials_file in
  if has_key "username" _credentials && has_key "api_key" _credentials then
    let* username := getitem _credentials "username" in
    let* api_key := getitem _credentials "api_key" in
    ret (username, api_key)
  else if has_key "username" file_credentials
          && has_key "api_key" file_credentials then
    let* username := getitem file_credentials "username" in
    let* api_key := getitem file_credentials "api_key" in
    ret (username, api_key)
  else raise PlotlyLocalCredentialsError.

Definition _validation_key_logic : M (pyval * pyval) :=
  let creds_on_file := tools_get_credentials_file in
  let* username :=
    if has_key "username" _credentials then getitem _credentials "username"
    else if has_key "username" creds_on_file
         then getitem creds_on_file "username"
    else ret PyNone in
  let* api_key :=
    if has_key "api_key" _credentials then getitem _credentials "api_key"
    else if has_key "api_key" creds_on_file
         then getitem creds_on_file "api_key"
    else ret PyNone in
  if is_none username || is_none api_key
  then raise PlotlyLocalCredentialsError
  else ret (username, api_key).

(** [_open_url(url)]: whatever the browser call raises is swallowed. *)
Definition _open_url (url : pyval) : M unit := tell (OpenUrl url).

(** [if k in r and r[k] != '': act(r[k])] *)
Definition when_nonempty_field (r : pyval) (k : string)
    (act : pyval → M unit) : M unit :=
  let* present := py_in k r in
  if present then
    let* v := py_getitem r k in
    if negb (is_empty_str v) then act v else ret tt
  else ret tt.

(** The end of [_send_to_plotly], from [r.raise_for_status()] on: the reply
    is checked, decoded, and its error, warning and message are reported. *)
Definition read_reply (r : response) : M pyval :=
  raise_for_status r >>
  let* r := loads (content r) in
  when_nonempty_field r "error" (fun v => tell (Print v)) >>
  when_nonempty_field r "warning" (fun v => tell (Warn v)) >>
  when_nonempty_field r "message" (fun v => tell (Print v)) >>
  ret r.

(** [_send_to_plotly], called with [figure] and the keywords [plot_options] *)
Definition _send_to_plotly (figure plot_options : gmap string pyval)
    : M pyval :=
  (* a keyword named like the positional parameter is rejected by the call *)
  (if has_key "figure" plot_options then raise TypeError else ret tt) >>
  let fig := tools__replace_newline figure in
  let data := json_dumps (match fig !! "data" with
                          | Some v => v
                          | None => PyList []
                          end) in
  let* '(username, api_key) := _get_session_username_and_key in
  let* filename := getitem plot_options "filename" in
  let* fileopt := getitem plot_options "fileopt" in
  let* world_readable := getitem plot_options "world_readable" in
  let layout := match fig !! "layout" with
                | Some v => v
                | None => PyDict ∅
                end in
  let kwargs := json_dumps (PyDict
    (<["filename" := filename]>
    (<["fileopt" := fileopt]>
    (<["world_readable" := world_readable]>
    (<["layout" := layout]> ∅))))) in
  let payload := PyDict
    (<["platform" := PyStr "python"]>
    (<["version" := PyStr version__version__]>
    (<["args" := PyStr data]>
    (<["un" := username]>
    (<["key" := api_key]>
    (<["origin" := PyStr "plot"]>
    (<["kwargs" := PyStr kwargs]> ∅))))))) in
  let* domain := getitem tools_get_config_file "plotly_domain" in
  let* url := py_add_str domain "/clientresp" in
  let* r := post url payload None in
  read_reply r.

Definition not_dict_or_list_msg : string :=
  "The `figure_or_data` positional argument must be either `dict`-like or `list`-like.".

Definition invalid_figure_msg : string :=
  "Invalid 'figure_or_data' argument. Plotly will not be able to properly parse the resulting JSON. If you want to send this 'figure_or_data' to Plotly anyway (not recommended), you can set 'validate=False' as a plot option."
  +:+ newline +:+ "Here's why you're seeing this error:" +:+ newline +:+ newline.

Definition too_many_points_msg : string :=
  "Woah there! Look at all those points! Due to browser limitations, Plotly has a hard time graphing more than 500k data points for line charts, or 40k points for other types of charts. Here are some suggestions:"
  +:+ newline +:+
  "(1) Trying using the image API to return an image instead of a graph URL"
  +:+ newline +:+ "(2) Use matplotlib" +:+ newline +:+
  "(3) See if you can create your visualization with fewer data points"
  +:+ newline +:+ newline +:+
  "If the visualization you're using aggregates points (e.g., box plot, histogram, etc.) you can disregard this warning.".

(** The end of [plot], once the figure has been looked over: the options
    are resolved, the figure is sent, and the reply is turned into the
    url or into an exception. *)
Definition plot_submit (figure plot_options : gmap string pyval) : M pyval :=
  let plot_options := _plot_option_logic _plot_options plot_options in
  let* res := _send_to_plotly figure plot_options in
  let* err := py_getitem res "error" in
  if is_empty_str err then
    let* auto_open := getitem plot_options "auto_open" in
    (if truthy auto_open then
       let* url := py_getitem res "url" in _open_url url
     else ret tt) >>
    py_getitem res "url"
  else raise (PlotlyAccountError err).

(** The body of the inner loop of [plot]: [len(val) > 40000] warns, and the
    [TypeError] of an unsized value is passed over. *)
Definition check_points (item : string * pyval) : M unit :=
  match py_len (snd item) with
  | Some n =>
      if (40000 <? n)%Z then tell (Warn (PyStr too_many_points_msg))
      else ret tt
  | None => ret tt
  end.

(** The loop of [plot] over the entries of [figure['data']] and over the
    items of each. *)
Definition look_over (entries : list pyval) : M unit :=
  for_each entries (fun entry =>
    let* items := py_items entry in
    for_each items check_points).

(** [plot], called with [figure_or_data], [validate] and the remaining
    keywords [plot_options] *)
Definition plot (figure_or_data : pyval) (validate : bool)
    (plot_options : gmap string pyval) : M pyval :=
  let* figure :=
    match figure_or_data with
    | PyDict d => ret d
    | PyList l => ret (<["data" := PyList l]> ∅)
    | _ => raise (PlotlyError (PyStr not_dict_or_list_msg))
    end in
  (if validate then
     match tools_validate (PyDict figure) (PyStr "Figure") with
     | None => ret tt
     | Some err => raise (PlotlyError (PyStr (invalid_figure_msg +:+ err)))
     end
   else ret tt) >>
  let* data := getitem figure "data" in
  let* entries := py_iter data in
  look_over entries >>
  plot_submit figure plot_options.

End Plotly.

(** ** Streams *)

(** [plotly.plotly.chunked_requests.Stream], the socket object a [Stream]
    owns once opened.  Its methods change the object, may raise, and are
    the only place where stream data leaves the process. *)
Class ChunkedRequests : Type := {
  conn : Type;
  chunked_Stream :
    pyval → Z → gmap string pyval → result conn;
  chunked_write : conn → string → list pyval → conn * M unit;
  chunked_close : conn → conn * M unit
}.

Section Streams.
Context `{Ext : Externals} `{CR : ChunkedRequests}.

(** A [Stream] object; [_stream = None] is the attribute not being set. *)
Record Stream : Type := {
  stream_id : string;
  connected : bool;
  _stream : option conn
}.

Definition Stream__init__ (stream_id : string) : Stream :=
  {| stream_id := stream_id; connected := false; _stream := None |}.

Definition set__stream (self : Stream) (c : conn) : Stream :=
  {| stream_id := stream_id self;
     connected := connected self;
     _stream := Some c |}.

(** [Stream.open(self)] *)
Definition Stream_open (self : Stream) : Stream * M unit :=
  match getitem tools_get_config_file "plotly_streaming_domain" with
  | (l, Raise e) => (self, (l, Raise e))
  | (l, Return streaming_url) =>
      match chunked_Stream streaming_url 80
              (<["Host" := streaming_url]>
              (<["plotly-streamtoken" := PyStr (stream_id self)]> ∅)) with
      | Return c => (set__stream self c, (l, Return tt))
      | Raise e => (self, (l, Raise e))
      end
  end.

Definition stream_invalid_msg (ty : pyval) (err : string) : string :=
  "Part of the data object with type, '" +:+ py_str ty +:+
  "', is invalid. This will default to 'scatter' if you do not supply a 'type'. If you do not want to validate your data objects when streaming, you can set 'validate=False' in the call to 'your_stream.write()'. Here's why the object is invalid:"
  +:+ newline +:+ newline +:+ err.

Definition stream_unstreamable_msg (ty : pyval) (err : string) : string :=
  "Part of the data object with type, '" +:+ py_str ty +:+
  "', cannot yet be streamed into Plotly. If you do not want to validate your data objects when streaming, you can set 'validate=False' in the call to 'your_stream.write()'. Here's why the object cannot be streamed:"
  +:+ newline +:+ newline +:+ err.

Definition layout_invalid_msg (err : string) : string :=
  "Your layout kwarg was invalid. Here's why:" +:+ newline +:+ newline +:+ err.

Definition write_not_open_msg : string :=
  "Stream has not been opened yet, cannot write to a closed connection. Call `open()` on the stream to open the stream.".

Definition close_not_open_msg : string := "Stream has not been opened yet.".

(** [try: check except PlotlyError as err: raise PlotlyError(msg(err))] *)
Definition revalidate (check : option string) (msg : string → string)
    : M unit :=
  match check with
  | None => ret tt
  | Some err => raise (PlotlyError (PyStr (msg err)))
  end.

(** The part of [Stream.write] before the socket is touched: the object to
    send, validated when asked to, as one line of JSON. *)
Definition write_jdata (trace : gmap string pyval) (layout : option pyval)
    (validate : bool) : M string :=
  let stream_object := update ∅ trace in
  let stream_object :=
    if has_key "type" stream_object then stream_object
    else <["type" := PyStr "scatter"]> stream_object in
  let* ty := getitem stream_object "type" in
  (if validate then
     revalidate (tools_validate (PyDict stream_object) ty)
                (stream_invalid_msg ty) >>
     revalidate (tools_validate_stream (PyDict stream_object) ty)
                (stream_unstreamable_msg ty) >>
     match layout with
     | Some lay =>
         revalidate (tools_validate lay (PyStr "Layout")) layout_invalid_msg
     | None => ret tt
     end
   else ret tt) >>
  let stream_object := delete "type" stream_object in
  let stream_object :=
    match layout with
    | Some lay => update stream_object (<["layout" := lay]> ∅)
    | None => stream_object
    end in
  let jdata := json_dumps (PyDict stream_object) in
  ret (jdata +:+ newline).

(** [except AttributeError: raise PlotlyError(msg)] *)
Definition on_AttributeError (msg : string) (e : exn) : option (M unit) :=
  match e with
  | AttributeError => Some (raise (PlotlyError (PyStr msg)))
  | _ => None
  end.

(** [Stream.write(self, trace, layout=None, validate=True,
    reconnect_on=(200, '', 408))] *)
Definition Stream_write (self : Stream) (trace : gmap string pyval)
    (layout : option pyval) (validate : bool) (reconnect_on : list pyval)
    : Stream * M unit :=
  match write_jdata trace layout validate with
  | (l, Raise e) => (self, (l, Raise e))
  | (l, Return jdata) =>
      let '(self', m) :=
        match _stream self with
        | None => (self, raise AttributeError)   (* self._stream *)
        | Some c =>
            let '(c', m) := chunked_write c jdata reconnect_on in
            (set__stream self c', m)
        end in
      (self', (l, Return tt) >> try_except m (on_AttributeError write_not_open_msg))
  end.

(** [Stream.close(self)] *)
Definition Stream_close (self : Stream) : Stream * M unit :=
  let '(self', m) :=
    match _stream self with
    | None => (self, raise AttributeError)       (* self._stream *)
    | Some c =>
        let '(c', m) := chunked_close c in (set__stream self c', m)
    end in
  (self', try_except m (on_AttributeError close_not_open_msg)).

(** A call a client can make on a stream handle. *)
Inductive stream_call : Type :=
  | CallOpen
  | CallWrite (trace : gmap string pyval) (layout : option pyval)
              (validate : bool) (reconnect_on : list pyval)
  | CallClose.

Definition do_call (self : Stream) (c : stream_call) : Stream * M unit :=
  match c with
  | CallOpen => Stream_open self
  | CallWrite trace layout validate reconnect_on =>
      Stream_write self trace layout validate reconnect_on
  | CallClose => Stream_close self
  end.

(** The handle after a sequence of calls, each of which may have raised
    (the caller goes on with the same object). *)
Definition after_calls (self : Stream) (cs : list stream_call) : Stream :=
  fold_left (fun s c => fst (do_call s c)) cs self.

End Streams.

(** ** Static images *)

Section Images.
Context `{Ext : Externals} `{G : Globals}.

Definition invalid_format_msg : string :=
  "Invalid format. This version of your Plotly-Python package currently only supports png, svg, jpeg, and pdf. Learn more about image exporting, and the currently supported file types here: https://plot.ly/python/static-image-export/".

(** [v in l] for a list of string literals *)
Definition in_strings (v : pyval) (l : list string) : bool :=
  match v with
  | PyStr s => existsb (String.eqb s) l
  | _ => false
  end.

(** [if 'content-type' in headers and 'json' in headers['content-type']] *)
Definition content_type_has_json (hdrs : gmap string pyval) : M bool :=
  if has_key "content-type" hdrs then
    let* ct := getitem hdrs "content-type" in py_in "json" ct
  else ret false.

Definition set_if_given (k : string) (v : option pyval)
    (d : gmap string pyval) : gmap string pyval :=
  match v with
  | Some x => <[k := x]> d
  | None => d
  end.

(** [image.get(figure_or_data, format='png', width=None, height=None)].
    The local [figure] is bound by neither branch of the first conditional
    when the argument is neither a dict nor a list; reading it later is an
    [UnboundLocalError], a [NameError]. *)
Definition image_get (figure_or_data format : pyval)
    (width height : option pyval) : M pyval :=
  let figure : option (gmap string pyval) :=
    match figure_or_data with
    | PyDict d => Some d
    | PyList l => Some (<["data" := PyList l]> ∅)
    | _ => None
    end in
  (if negb (in_strings format ["png"; "svg"; "jpeg"; "pdf"])
   then raise (PlotlyError (PyStr invalid_format_msg))
   else ret tt) >>
  let* '(username, api_key) := _validation_key_logic in
  let hdrs : gmap string pyval :=
    <["plotly-username" := username]>
    (<["plotly-apikey" := api_key]>
    (<["plotly-version" := PyStr version__version__]>
    (<["plotly-platform" := PyStr "python"]> ∅))) in
  let* figure :=
    match figure with
    | Some f => ret f
    | None => raise (UnboundLocalError "figure")
    end in
  let payload : gmap string pyval :=
    <["figure" := PyDict figure]> (<["format" := format]> ∅) in
  let payload := set_if_given "width" width payload in
  let payload := set_if_given "height" height payload in
  let* domain := getitem tools_get_config_file "plotly_domain" in
  let* url := py_add_str domain "/apigenimage/" in
  let* res := post url (PyStr (json_dumps (PyDict payload))) (Some hdrs) in
  let hdrs := headers res in
  if (status_code res =? 200)%Z then
    if has_key "content-type" hdrs
       && in_strings (default PyNone (hdrs !! "content-type"))
            ["image/png"; "image/jpeg"; "application/pdf"; "image/svg+xml"]
    then ret (PyStr (content res))
    else
      let* json := content_type_has_json hdrs in
      if json then
        let* return_data := loads (content res) in
        py_getitem return_data "image"
      else ret PyNone
  else
    let* return_data :=
      try_except
        (let* json := content_type_has_json hdrs in
         if json then loads (content res)
         else ret (PyDict (<["error" := PyStr (content res)]> ∅)))
        (fun _ => Some (raise (PlotlyError
           (PyStr "The response from plotly could not be translated.")))) in
    let* e := py_getitem return_data "error" in
    raise (PlotlyError e).

End Images.

(** ** Grids *)

(** A column of a grid and a grid, as [grid_ops] uses them: a grid is a
    mutable sequence of columns (it is iterated and [extend]ed) with an
    [id] attribute, so it is false in a condition exactly when it holds no
    column.  The [data] of a column is a list object that [append_rows]
    extends in place: a column refers to it, the lists themselves live in
    a store, and two columns may refer to the same list. *)
Record Column : Type := {
  Column_name : string;
  Column_data : positive;                (* the list object column.data *)
  Column_id : pyval
}.

(** [column.data], read *)
Definition column_data (store : gmap positive (list pyval))
    (column : Column) : list pyval :=
  default [] (store !! Column_data column).

(** [column.data.extend(items)] *)
Definition extend_data (column : Column) (items : list pyval)
    (store : gmap positive (list pyval)) : gmap positive (list pyval) :=
  alter (fun data => data ++ items) (Column_data column) store.

Record Grid : Type := {
  Grid_id : option string;               (* None is Python's None *)
  Grid_columns : list Column
}.

Definition grid_truthy (grid : option Grid) : bool :=
  match grid with
  | Some g => negb (Nat.eqb (length (Grid_columns g)) 0)
  | None => false
  end.

(** [zip] of the unpacked rows: the columns of the row block, cut at the
    shortest row. *)
Definition zip_star {A} (rows : list (list A)) : list (list A) :=
  match rows with
  | [] => []
  | r :: rs =>
      let m := fold_right Nat.min (length r) (map (@length A) rs) in
      map (fun i => omap (fun row => row !! i) rows) (seq 0 m)
  end.

Fixpoint enumerate_from {A} (i : nat) (l : list A) : list (nat * A) :=
  match l with
  | [] => []
  | x :: l' => (i, x) :: enumerate_from (S i) l'
  end.

Section Grids.
Context `{Ext : Externals} `{G : Globals}.

Definition no_grid_arg_msg : string :=
  "One of the following keyword arguments is required:" +:+ newline +:+
  "    `grid`, `grid_id`, or `grid_url`" +:+ newline +:+ newline +:+
  "grid: a plotly.graph_objs.Grid object that has already" +:+ newline +:+
  "    been uploaded to Plotly." +:+ newline +:+ newline +:+
  "grid_url: the url where the grid can be accessed on" +:+ newline +:+
  "    Plotly, e.g. 'https://plot.ly/~chris/3043'" +:+ newline +:+ newline +:+
  "grid_id: a unique identifier assigned by Plotly to the" +:+ newline +:+
  "    grid object, e.g. 'chris:3043'.".

Definition many_grid_args_msg (supplied : list string) : string :=
  "Only one of `grid`, `grid_id`, or `grid_url` is required. " +:+ newline +:+
  "You supplied '" +:+ py_str (PyList (map PyStr supplied)) +:+ "'. "
  +:+ newline.

(** ['{}'.format(x)] for a string or None *)
Definition format_opt (x : option string) : string :=
  match x with Some s => s | None => "None" end.

(** [grid_ops._parse_grid_id_args(grid, grid_url, grid_id)] *)
Definition _parse_grid_id_args (grid : option Grid)
    (grid_url grid_id : option string) : M (option string) :=
  let id_from_grid :=
    match grid with Some g => Grid_id g | None => None end in
  let args := [id_from_grid; grid_url; grid_id] in
  let arg_names := ["grid"; "grid_url"; "grid_id"] in
  let supplied_arg_names :=
    map fst (List.filter (fun p => match snd p with
                                   | Some _ => true
                                   | None => false
                                   end)
                         (zip arg_names args)) in
  match supplied_arg_names with
  | [] => raise (InputError no_grid_arg_msg)
  | [supplied_arg_name] =>
      if String.eqb supplied_arg_name "grid_url" then
        match grid_id_of_url (format_opt grid_url) with
        | Return i => ret (Some i)
        | Raise e => raise e
        end
      else if String.eqb supplied_arg_name "grid_id" then ret grid_id
      else ret id_from_grid                (* grid.id *)
  | _ => raise (InputError (many_grid_args_msg supplied_arg_names))
  end.

Definition _api_url : string := "https://api-local.plot.ly/v2/grids".

(** [grid_ops._headers()] *)
Definition _headers : M (gmap string pyval) :=
  let* '(un, api_key) := _get_session_username_and_key in
  let encoded_un_key_pair :=
    b64encode (py_str un +:+ ":" +:+ py_str api_key) in
  ret (<["authorization" := PyStr ("Basic " +:+ encoded_un_key_pair)]>
      (<["plotly_client_platform" :=
           PyStr ("python " +:+ version__version__)]> ∅)).

(** [sep.join(v)] *)
Definition py_join (sep : string) (v : pyval) : M string :=
  let* parts := py_iter v in
  let* strs :=
    fold_right (fun x acc =>
                  let* rest := acc in
                  match x with
                  | PyStr s => ret (s :: rest)
                  | _ => raise TypeError
                  end) (ret []) parts in
  ret (String.concat sep strs).

(** [grid_ops._response_handler(response)] *)
Definition _response_handler (response : response) : M (option pyval) :=
  raise_for_status response >>
  let* json := content_type_has_json (headers response) in
  if json && negb (Nat.eqb (String.length (content response)) 0) then
    let* response_dict := loads (content response) in
    let* has_warnings := py_in "warnings" response_dict in
    (if has_warnings then
       let* ws := py_getitem response_dict "warnings" in
       match py_len ws with
       | None => raise TypeError
       | Some n =>
           if negb (n =? 0)%Z then
             let* text := py_join newline ws in tell (Warn (PyStr text))
           else ret tt
       end
     else ret tt) >>
    ret (Some response_dict)
  else ret None.

Definition row_length_msg (row_i len_row n_columns : nat) : string :=
  "The number of entries in each row needs to equal the number of columns in the grid. Row "
  +:+ pretty row_i +:+ " has " +:+ pretty len_row +:+ " "
  +:+ (if Nat.eqb len_row 1 then "entry" else "entries")
  +:+ " but your grid has " +:+ pretty n_columns +:+ " "
  +:+ (if Nat.eqb n_columns 1 then "column" else "columns") +:+ ". ".

(** The end of [append_rows], after the reply was accepted: the local
    mirror is brought up to date in place.  The longest length is taken
    once; then every column's list is padded with empty strings up to it,
    one column after the other; then the columns are paired with the
    columns of the row block and each list is extended with its share. *)
Definition extend_columns (columns : list Column)
    (rows : list (list pyval)) (store : gmap positive (list pyval))
    : gmap positive (list pyval) :=
  let longest_column_length :=
    fold_right Nat.max 0
      (map (fun col => length (column_data store col)) columns) in
  let store :=
    fold_left (fun store column =>
                 let n_empty_rows :=
                   longest_column_length
                   - length (column_data store column) in
                 let empty_string_rows :=
                   repeat (PyStr EmptyString) n_empty_rows in
                 extend_data column empty_string_rows store)
              columns store in
  let column_extensions := zip_star rows in
  fold_left (fun store '(local_column, column_extension) =>
               extend_data local_column column_extension store)
            (zip columns column_extensions) store.

(** [grid_ops.append_rows(rows, grid=None, grid_url=None, grid_id=None)],
    run on the store holding the data lists of the grid's columns; the
    result is that store as the call leaves it. *)
Definition append_rows (rows : list (list pyval)) (grid : option Grid)
    (grid_url grid_id : option string)
    (store : gmap positive (list pyval))
    : M (gmap positive (list pyval)) :=
  let* grid_id := _parse_grid_id_args grid grid_url grid_id in
  (if grid_truthy grid then
     let n_columns :=
       length (match grid with Some g => Grid_columns g | None => [] end) in
     for_each (enumerate_from 0 rows) (fun '(row_i, row) =>
       if negb (Nat.eqb (length row) n_columns) then
         raise (InputError (row_length_msg row_i (length row) n_columns))
       else ret tt)
   else ret tt) >>
  let payload : gmap string pyval :=
    <["rows" := PyStr (json_dumps (PyList (map PyList rows)))]> ∅ in
  let api_url := _api_url +:+ "/" +:+ format_opt grid_id +:+ "/row" in
  let* hdrs := _headers in
  let* res := post api_url (PyDict payload) (Some hdrs) in
  _response_handler res >>
  match grid with
  | Some g =>
      if grid_truthy grid
      then ret (extend_columns (Grid_columns g) rows store)
      else ret store
  | None => ret store
  end.

End Grids.

(** ** Module-level state as shared objects *)

(** [_credentials] and [_plot_options] are names bound to dict objects that
    [sign_in] and [update_plot_options] change in place and that
    [get_credentials] and [get_plot_options] hand out copies of.  Here the
    objects live in a store, so that what a caller does to the object it
    was given can be told apart from what happens to the module's own. *)
Module ModuleState.

Definition loc := positive.

(** What a dict slot holds: an immutable value, or a reference to another
    object ([copy.copy] is shallow and copies references as they are). *)
Inductive hval : Type :=
  | Imm (v : pyval)
  | Ref (l : loc).

Record state : Type := {
  heap : gmap loc (gmap string hval);
  _credentials : loc;
  _plot_options : loc
}.

Definition set_heap (st : state) (h : gmap loc (gmap string hval)) : state :=
  {| heap := h;
     _credentials := _credentials st;
     _plot_options := _plot_options st |}.

(** The module as import leaves it: two empty dicts. *)
Definition initial : state :=
  {| heap := <[1%positive := ∅]> (<[2%positive := ∅]> ∅);
     _credentials := 1%positive;
     _plot_options := 2%positive |}.

(** Both names are bound to objects of the store. *)
Definition bound (st : state) : Prop :=
  is_Some (heap st !! _credentials st) ∧ is_Some (heap st !! _plot_options st).

(** A new object. *)
Definition alloc (d : gmap string hval) (st : state) : loc * state :=
  let l := fresh (dom (heap st)) in
  (l, set_heap st (<[l := d]> (heap st))).

(** The dict a name is bound to (empty for a dangling name). *)
Definition deref (st : state) (l : loc) : gmap string hval :=
  default ∅ (heap st !! l).

(** [copy.copy(obj)] *)
Definition copy_copy (l : loc) (st : state) : loc * state :=
  alloc (deref st l) st.

(** [sign_in(username, api_key)] *)
Definition sign_in (username api_key : hval) (st : state) : state :=
  set_heap st
    (alter (fun d => <["api_key" := api_key]> (<["username" := username]> d))
           (_credentials st) (heap st)).

(** [update_plot_options], called with keyword arguments [kwargs] *)
Definition update_plot_options (kwargs : gmap string hval) (st : state)
    : state :=
  set_heap st (alter (fun d => kwargs ∪ d) (_plot_options st) (heap st)).

(** [get_plot_options()] *)
Definition get_plot_options (st : state) : loc * state :=
  copy_copy (_plot_options st) st.

(** [get_credentials()]; [credentials_file] is what
    [tools.get_credentials_file()] reads from disk into a new dict. *)
Definition get_credentials (credentials_file : gmap string hval)
    (st : state) : loc * state :=
  let creds := deref st (_credentials st) in
  if bool_decide (is_Some (creds !! "username"))
     && bool_decide (is_Some (creds !! "api_key"))
  then copy_copy (_credentials st) st
  else alloc credentials_file st.

(** What a caller can do to a mapping it holds. *)
Inductive mutation : Type :=
  | SetItem (k : string) (v : hval)          (* m[k] = v *)
  | DelItem (k : string)                     (* del m[k] *)
  | Pop (k : string)                         (* m.pop(k, None) *)
  | Update (other : gmap string hval)        (* m.update(other) *)
  | Clear.                                   (* m.clear() *)

Definition mutate_dict (m : mutation) (d : gmap string hval)
    : gmap string hval :=
  match m with
  | SetItem k v => <[k := v]> d
  | DelItem k => delete k d
  | Pop k => delete k d
  | Update other => other ∪ d
  | Clear => ∅
  end.

(** One mutation of the object at [l]. *)
Definition mutate (l : loc) (st : state) (m : mutation) : state :=
  set_heap st (alter (mutate_dict m) l (heap st)).

Definition mutate_all (l : loc) (ms : list mutation) (st : state) : state :=
  fold_left (mutate l) ms st.

End ModuleState.

(** ** Sample environments *)

(** Concrete stand-ins for the libraries, used to run the model: a
    validator that knows a few object types, a plain chunked socket, and a
    server that answers every request with one fixed reply. *)
Module Sample.

Definition dq : string := String (ascii_of_nat 34) EmptyString.
Definition quoted (s : string) : string := dq +:+ s +:+ dq.

Definition ok_text : string :=
  "{" +:+ quoted "error" +:+ ": " +:+ quoted EmptyString +:+ ", "
  +:+ quoted "url" +:+ ": " +:+ quoted "https://plot.ly/~demo/1" +:+ "}".
Definition ok_reply : gmap string pyval :=
  <["error" := PyStr EmptyString]>
  (<["url" := PyStr "https://plot.ly/~demo/1"]> ∅).

Definition error_text : string :=
  "{" +:+ quoted "error" +:+ ": " +:+ quoted "Aw, snap!" +:+ "}".
Definition error_reply : gmap string pyval :=
  <["error" := PyStr "Aw, snap!"]> ∅.

Definition loads_known (text : string) : option pyval :=
  if String.eqb text ok_text then Some (PyDict ok_reply)
  else if String.eqb text error_text then Some (PyDict error_reply)
  else None.

Definition validate_known (obj obj_type : pyval) : option string :=
  if in_strings obj_type ["Figure"; "Layout"; "scatter"; "bar"] then None
  else Some "not a recognizable graph_obj.".

Definition str_of (v : pyval) : string :=
  match v with
  | PyStr s => s
  | PyNone => "None"
  | PyBool true => "True"
  | PyBool false => "False"
  | PyInt z => pretty z
  | _ => "..."
  end.

Definition reply (status : Z) (text : string) : response :=
  {| status_code := status;
     headers := <["content-type" := PyStr "application/json"]> ∅;
     content := text |}.

Definition externals (answer : response) : Externals :=
  {| tools_validate := validate_known;
     tools_validate_stream := fun _ _ => None;
     tools_get_credentials_file := ∅;
     tools_get_config_file :=
       <["plotly_domain" := PyStr "https://plot.ly"]>
       (<["plotly_streaming_domain" := PyStr "stream.plot.ly"]> ∅);
     tools__replace_newline := fun figure => figure;
     version__version__ := "1.4.0";
     json_dumps := str_of;
     json_loads := loads_known;
     py_str := str_of;
     b64encode := fun s => s;
     requests_post := fun _ _ _ => Return answer;
     grid_id_of_url := fun url => Return url |}.

Definition signed_in : Globals :=
  {| _credentials :=
       <["username" := PyStr "demo"]> (<["api_key" := PyStr "secret"]> ∅);
     _plot_options := ∅ |}.

(** A socket that records what it was given. *)
Definition socket : ChunkedRequests :=
  {| conn := list string;
     chunked_Stream := fun _ _ _ => Return [];
     chunked_write := fun c data _ =>
       (c ++ [data], ([StreamSend data], Return tt));
     chunked_close := fun c => (c, ([], Return tt)) |}.

Definition scatter_trace : gmap string pyval :=
  <["x" := PyInt 1]> (<["y" := PyInt 2]> ∅).


(** The data list of the one column of [demo:7]. *)
Definition data_lists : gmap positive (list pyval) :=
  <[1%positive := [PyInt 1; PyInt 2]]> ∅.

Definition one_column : Grid :=
  {| Grid_id := Some "demo:7";
     Grid_columns :=
       [{| Column_name := "time";
           Column_data := 1%positive;
           Column_id := PyStr "demo:7/a1" |}] |}.

Definition no_column : Grid :=
  {| Grid_id := Some "demo:8"; Grid_columns := [] |}.

End Sample.

(** ** Vocabulary of the properties *)

(** The filename/fileopt rule of [_plot_option_logic] applies. *)
Definition overwrite_rule (G C : gmap string pyval) : Prop :=
  is_Some (C !! "filename") ∧ G !! "fileopt" = None ∧ C !! "fileopt" = None.

(** Key-wise precedence: call overrides, then process-wide overrides, then
    defaults. *)
Definition by_precedence (D G C : gmap string pyval) (k : string)
    : option pyval :=
  match C !! k with
  | Some v => Some v
  | None => match G !! k with
            | Some v => Some v
            | None => D !! k
            end
  end.

(** No event of the computation satisfies [p]. *)
Definition without {A} (p : event → bool) (m : M A) : Prop :=
  Forall (fun ev => p ev = false) (log m).

(** [r.raise_for_status()] lets the reply through. *)
Definition status_ok (r : response) : Prop :=
  ¬ (400 ≤ status_code r < 600)%Z.

(** The figure [plot] and [image.get] make of their first argument. *)
Definition figure_of (figure_or_data : pyval) : option (gmap string pyval) :=
  match figure_or_data with
  | PyDict d => Some d
  | PyList l => Some (<["data" := PyList l]> ∅)
  | _ => None
  end.



(** The object [Stream.write] validates: the trace, typed ['scatter'] when
    it names no type. *)
Definition stream_object_of (trace : gmap string pyval) : gmap string pyval :=
  let stream_object := update ∅ trace in
  if has_key "type" stream_object then stream_object
  else <["type" := PyStr "scatter"]> stream_object.

(** The checks [Stream.write] makes when [validate] is set all pass. *)
Definition passes_validation `{Externals} (trace : gmap string pyval)
    (layout : option pyval) : Prop :=
  ∃ ty, stream_object_of trace !! "type" = Some ty
    ∧ tools_validate (PyDict (stream_object_of trace)) ty = None
    ∧ tools_validate_stream (PyDict (stream_object_of trace)) ty = None
    ∧ match layout with
      | Some lay => tools_validate lay (PyStr "Layout") = None
      | None => True
      end.

Definition is_open_call (c : stream_call) : bool :=
  match c with CallOpen => true | _ => false end.

(** Some row does not have [n] entries. *)
Definition row_mismatch (rows : list (list pyval)) (n : nat) : Prop :=
  ∃ row, In row rows ∧ length row ≠ n.

(** [st'] binds the module's two names to the objects [st] binds them to,
    and these objects hold in [st'] what they hold in [st]. *)
Definition same_module_state (st st' : ModuleState.state) : Prop :=
  ModuleState._credentials st' = ModuleState._credentials st
  ∧ ModuleState._plot_options st' = ModuleState._plot_options st
  ∧ ModuleState.heap st' !! ModuleState._credentials st
    = ModuleState.heap st !! ModuleState._credentials st
  ∧ ModuleState.heap st' !! ModuleState._plot_options st
    = ModuleState.heap st !! ModuleState._plot_options st.

(** ** Vocabulary of the further properties *)

Definition is_open_url (ev : event) : bool :=
  match ev with OpenUrl _ => true | _ => false end.

(** The requests among some events. *)
Definition posts (l : list event) : list event := List.filter is_post l.

(** The object [Stream.write] serialises: the trace without its type,
    with the layout added when one is given. *)
Definition sent_object (trace : gmap string pyval) (layout : option pyval)
    : gmap string pyval :=
  let stream_object := delete "type" (stream_object_of trace) in
  match layout with
  | Some lay => update stream_object (<["layout" := lay]> ∅)
  | None => stream_object
  end.

(** What [write] and [close] make of what the socket did: an
    [AttributeError] becomes the stream-not-open [PlotlyError]. *)
Definition reported (msg : string) (m : M unit) : M unit :=
  match outcome m with
  | Raise AttributeError => (log m, Raise (PlotlyError (PyStr msg)))
  | _ => m
  end.

(** ** Static images: the reply, and saving *)

Section SavedImages.
Context `{Ext : Externals} `{G : Globals}.

(** The end of [image.get], from [headers = res.headers] on: what the
    call makes of the server's reply. *)
Definition image_reply (res : response) : M pyval :=
  let hdrs := headers res in
  if (status_code res =? 200)%Z then
    if has_key "content-type" hdrs
       && in_strings (default PyNone (hdrs !! "content-type"))
            ["image/png"; "image/jpeg"; "application/pdf"; "image/svg+xml"]
    then ret (PyStr (content res))
    else
      let* json := content_type_has_json hdrs in
      if json then
        let* return_data := loads (content res) in
        py_getitem return_data "image"
      else ret PyNone
  else
    let* return_data :=
      try_except
        (let* json := content_type_has_json hdrs in
         if json then loads (content res)
         else ret (PyDict (<["error" := PyStr (content res)]> ∅)))
        (fun _ => Some (raise (PlotlyError
           (PyStr "The response from plotly could not be translated.")))) in
    let* e := py_getitem return_data "error" in
    raise (PlotlyError e).

(** [ext[1:]] *)
Definition drop_first (s : string) : string :=
  match s with
  | EmptyString => EmptyString
  | String _ rest => rest
  end.

(** ['.' + format] *)
Definition dot_format (format : pyval) : M string :=
  match format with
  | PyStr f => ret ("." +:+ f)
  | _ => raise TypeError
  end.

(** [image.save_as(figure_or_data, filename, format=None, width=None,
    height=None)], given [os.path.splitext].  The result stands for the
    file the call leaves behind: its name and the bytes written to it
    (opening the file is taken to succeed). *)
Definition save_as (splitext : string → string * string)
    (figure_or_data : pyval) (filename : string) (format : pyval)
    (width height : option pyval) : M (string * pyval) :=
  let '(base, ext) := splitext filename in
  let* '(filename, format) :=
    if negb (truthy (PyStr ext)) && negb (truthy format) then
      ret (filename +:+ ".png", format)
    else if truthy (PyStr ext) && negb (truthy format) then
      ret (filename, PyStr (drop_first ext))
    else if negb (truthy (PyStr ext)) && truthy format then
      let* suffix := dot_format format in ret (filename +:+ suffix, format)
    else
      let* suffix := dot_format format in ret (filename +:+ suffix, format) in
  let* img := image_get figure_or_data format width height in
  match img with
  | PyStr _ => ret (filename, img)
  | _ => raise TypeError                 (* f.write(img) *)
  end.

End SavedImages.

(** The length of the longest column of a grid. *)
Definition longest_column (store : gmap positive (list pyval))
    (columns : list Column) : nat :=
  fold_right Nat.max 0 (map (fun col => length (column_data store col)) columns).

(** The columns have each a data list of their own, held in the store. *)
Definition separate_columns (store : gmap positive (list pyval))
    (columns : list Column) : Prop :=
  NoDup (map Column_data columns)
  ∧ Forall (fun col => is_Some (store !! Column_data col)) columns.

(** Column [j] of a block of rows. *)
Definition column_of_rows (j : nat) (rows : list (list pyval)) : list pyval :=
  omap (fun row => row !! j) rows.

(** A run of in-place changes, each of one list of the store. *)
Definition changed (ps : list (positive * (list pyval → list pyval)))
    (store : gmap positive (list pyval)) : gmap positive (list pyval) :=
  fold_left (fun s p => alter (snd p) (fst p) s) ps store.

(** How many of the three ways of naming a grid a call uses. *)
Definition grid_names_given (grid : option Grid)
    (grid_url grid_id : option string) : nat :=
  length (List.filter (fun x : option string =>
                         match x with Some _ => true | None => false end)
            [match grid with Some g => Grid_id g | None => None end;
             grid_url; grid_id]).

(** ** More sample data *)

Module Cases.

(** No credentials in the process. *)
Definition signed_out : Globals :=
  {| _credentials := ∅; _plot_options := ∅ |}.

(** A rendered image. *)
Definition png_reply : response :=
  {| status_code := 200;
     headers := <["content-type" := PyStr "image/png"]> ∅;
     content := "PNG" |}.

(** A reply that says nothing about its content. *)
Definition bare_reply : response :=
  {| status_code := 200; headers := ∅; content := EmptyString |}.

(** A name split at its last dot, for names that do not start with
    one. *)
Fixpoint splitext (s : string) : string * string :=
  match s with
  | EmptyString => (EmptyString, EmptyString)
  | String c rest =>
      let '(base, ext) := splitext rest in
      match ext with
      | EmptyString =>
          if Ascii.eqb c "." then (EmptyString, String c rest)
          else (String c base, EmptyString)
      | _ => (String c base, ext)
      end
  end.

(** An opened stream of the sample socket. *)
Definition opened : @Stream Sample.socket :=
  @Build_Stream Sample.socket "token" false (Some []).

(** A socket object whose [write] and [close] raise [AttributeError]
    themselves. *)
Definition faulty_socket : ChunkedRequests :=
  {| conn := unit;
     chunked_Stream := fun _ _ _ => Return tt;
     chunked_write := fun c _ _ => (c, raise AttributeError);
     chunked_close := fun c => (c, raise AttributeError) |}.

Definition two_columns : Grid :=
  {| Grid_id := Some "demo:9";
     Grid_columns :=
       [{| Column_name := "time";
           Column_data := 1%positive;
           Column_id := PyStr "demo:9/a1" |};
        {| Column_name := "value";
           Column_data := 2%positive;
           Column_id := PyStr "demo:9/b2" |}] |}.

(** The data lists of the two columns of [demo:9]. *)
Definition two_lists : gmap positive (list pyval) :=
  <[1%positive := [PyInt 1; PyInt 2]]> (<[2%positive := [PyInt 10]]> ∅).

(** A grid whose two columns hold one and the same list. *)
Definition shared_columns : Grid :=
  {| Grid_id := Some "demo:10";
     Grid_columns :=
       [{| Column_name := "a";
           Column_data := 1%positive;
           Column_id := PyStr "demo:10/a1" |};
        {| Column_name := "b";
           Column_data := 1%positive;
           Column_id := PyStr "demo:10/b2" |}] |}.

End Cases.

(** * Properties *)

(** ** Option resolution *)

Lemma has_key_true k (d : gmap string pyval) :
  has_key k d = true ↔ is_Some (d !! k).
Proof. unfold has_key. apply bool_decide_eq_true. Qed.

Lemma has_key_false k (d : gmap string pyval) :
  has_key k d = false ↔ d !! k = None.
Proof.
  unfold has_key. rewrite bool_decide_eq_false.
  rewrite eq_None_not_Some. done.
Qed.

Lemma lookup_update (self other : gmap string pyval) k :
  update self other !! k =
  match other !! k with Some v => Some v | None => self !! k end.
Proof.
  unfold update. rewrite lookup_union.
  destruct (other !! k), (self !! k); done.
Qed.

Lemma overwrite_rule_test G C :
  has_key "filename" C && negb (has_key "fileopt" G)
    && negb (has_key "fileopt" C) = true ↔ overwrite_rule G C.
Proof.
  unfold overwrite_rule.
  rewrite !andb_true_iff, !negb_true_iff, has_key_true, !has_key_false.
  tauto.
Qed.

Lemma merged_lookup D G C k :
  update (update (update ∅ D) G) C !! k = by_precedence D G C k.
Proof.
  unfold by_precedence. rewrite !lookup_update, lookup_empty.
  destruct (C !! k), (G !! k), (D !! k); done.
Qed.

(** C1: when the call names a file and neither the process-wide overrides
    nor the call give [fileopt], the merged options map [fileopt] to
    ['overwrite'], although the built-in default is ['new']. *)
Theorem plot_option_logic_filename_forces_overwrite
    (G C : gmap string pyval) :
  is_Some (C !! "filename") →
  G !! "fileopt" = None →
  C !! "fileopt" = None →
  _plot_option_logic G C !! "fileopt" = Some (PyStr "overwrite")
  ∧ _DEFAULT_PLOT_OPTIONS !! "fileopt" = Some (PyStr "new").
Proof.
  intros Hf HG HC. split; [|done].
  unfold _plot_option_logic, _plot_option_logic_from.
  assert (Hr : overwrite_rule G C) by done.
  apply overwrite_rule_test in Hr. rewrite Hr.
  apply lookup_insert_eq.
Qed.

Lemma plot_option_logic_filename_forces_overwrite_witness :
  _plot_option_logic ∅ (<["filename" := PyStr "my plot"]> ∅) !! "fileopt"
    = Some (PyStr "overwrite")
  ∧ _DEFAULT_PLOT_OPTIONS !! "fileopt" = Some (PyStr "new").
Proof.
  apply (plot_option_logic_filename_forces_overwrite
           ∅ (<["filename" := PyStr "my plot"]> ∅)).
  - rewrite lookup_insert_eq. eexists. reflexivity.
  - apply lookup_empty.
  - rewrite lookup_insert_ne by discriminate. apply lookup_empty.
Defined.

(** C2: outside the filename/fileopt rule, the merged options are the
    defaults overridden key-wise by the process-wide overrides, overridden
    key-wise by the call's: for every key, the call's value if it has one,
    else the process-wide one, else the default.  This holds for any
    defaults, and so for the module's own. *)
Theorem plot_option_logic_precedence (D G C : gmap string pyval) (k : string) :
  (k = "fileopt" → ¬ overwrite_rule G C) →
  _plot_option_logic_from D G C !! k = by_precedence D G C k
  ∧ _plot_option_logic G C !! k = by_precedence _DEFAULT_PLOT_OPTIONS G C k.
Proof.
  intros Hk.
  assert (Hgen : ∀ D', _plot_option_logic_from D' G C !! k
                       = by_precedence D' G C k).
  { intros D'. unfold _plot_option_logic_from.
    destruct (has_key "filename" C && negb (has_key "fileopt" G)
              && negb (has_key "fileopt" C)) eqn:Hrule.
    - apply overwrite_rule_test in Hrule.
      destruct (decide (k = "fileopt")) as [->|Hne].
      + exfalso. by apply Hk.
      + rewrite lookup_insert_ne by done. apply merged_lookup.
    - apply merged_lookup. }
  split; [apply Hgen | apply (Hgen _DEFAULT_PLOT_OPTIONS)].
Qed.

Lemma plot_option_logic_precedence_witness :
  _plot_option_logic_from
    (<["world_readable" := PyBool true]> ∅)
    (<["world_readable" := PyBool false]> ∅)
    (<["filename" := PyStr "my plot"]> ∅) !! "world_readable"
  = by_precedence
      (<["world_readable" := PyBool true]> ∅)
      (<["world_readable" := PyBool false]> ∅)
      (<["filename" := PyStr "my plot"]> ∅) "world_readable"
  ∧ _plot_option_logic
      (<["world_readable" := PyBool false]> ∅)
      (<["filename" := PyStr "my plot"]> ∅) !! "world_readable"
    = by_precedence _DEFAULT_PLOT_OPTIONS
        (<["world_readable" := PyBool false]> ∅)
        (<["filename" := PyStr "my plot"]> ∅) "world_readable".
Proof.
  apply (plot_option_logic_precedence
           (<["world_readable" := PyBool true]> ∅)
           (<["world_readable" := PyBool false]> ∅)
           (<["filename" := PyStr "my plot"]> ∅) "world_readable").
  intros Habs. discriminate Habs.
Defined.

(** ** The effect monad *)

Section MonadFacts.
Context {A B : Type}.

Lemma bind_Return (m : M A) (k : A → M B) a :
  outcome m = Return a →
  bind m k = (log m ++ log (k a), outcome (k a)).
Proof. intros H. unfold bind. by rewrite H. Qed.

Lemma bind_Raise (m : M A) (k : A → M B) e :
  outcome m = Raise e → bind m k = (log m, Raise e).
Proof. intros H. unfold bind. by rewrite H. Qed.

Lemma bind_ret (a : A) (k : A → M B) : bind (ret a) k = k a.
Proof. unfold bind, ret. simpl. by destruct (k a). Qed.

Lemma bind_raise (e : exn) (k : A → M B) : bind (raise e) k = raise e.
Proof. reflexivity. Qed.

Lemma log_bind_prefix (m : M A) (k : A → M B) :
  ∃ l, log (bind m k) = log m ++ l.
Proof.
  unfold bind. destruct (outcome m); simpl.
  - by eexists.
  - exists []. by rewrite app_nil_r.
Qed.

Lemma without_bind p (m : M A) (k : A → M B) :
  without p m → (∀ a, without p (k a)) → without p (bind m k).
Proof.
  unfold without, bind. intros Hm Hk.
  destruct (outcome m); simpl; [|done].
  apply Forall_app. split; [done | apply Hk].
Qed.

Lemma without_ret p (a : A) : without p (ret a).
Proof. constructor. Qed.

Lemma without_raise p e : without p (raise e : M A).
Proof. constructor. Qed.

End MonadFacts.

Lemma without_tell p ev : p ev = false → without p (tell ev).
Proof. intros H. unfold without. simpl. by constructor. Qed.

Lemma without_for_each {A} p (l : list A) (body : A → M unit) :
  (∀ x, without p (body x)) → without p (for_each l body).
Proof.
  intros Hb. induction l as [|x l IH]; simpl.
  - apply without_ret.
  - apply without_bind; [apply Hb | intros _; apply IH].
Qed.

Lemma without_getitem p d k : without p (getitem d k).
Proof. unfold getitem. destruct (d !! k); constructor. Qed.

Lemma without_py_getitem p v k : without p (py_getitem v k).
Proof. destruct v; try constructor. apply without_getitem. Qed.

Lemma without_py_in p k v : without p (py_in k v).
Proof. destruct v; constructor. Qed.

Lemma without_py_items p v : without p (py_items v).
Proof. destruct v; constructor. Qed.

Lemma without_py_iter p v : without p (py_iter v).
Proof. destruct v; constructor. Qed.

Lemma without_try_except {A} p (m : M A) h :
  without p m → (∀ e k, h e = Some k → without p k) →
  without p (try_except m h).
Proof.
  unfold without, try_except. intros Hm Hh.
  destruct (outcome m) as [a|e]; [done|].
  destruct (h e) as [k|] eqn:He; [|done]. simpl.
  apply Forall_app. split; [done|]. by eapply Hh.
Qed.

(** Closes goals that a computation built from the primitives emits no
    event of some kind. *)
Ltac quiet :=
  repeat first
    [ apply without_ret | apply without_raise
    | apply without_getitem | apply without_py_getitem
    | apply without_py_in | apply without_py_items | apply without_py_iter
    | apply without_tell; reflexivity
    | apply without_bind; [|intros ?]
    | apply without_for_each; intros ?
    | match goal with
      | |- without _ (if ?c then _ else _) => destruct c
      | |- without _ (match ?x with _ => _ end) => destruct x
      end ].

(** ** Figure submission *)

Section PlotFacts.
Context `{Ext : Externals} `{G : Globals}.


Lemma when_nonempty_field_dict (d : gmap string pyval) k act :
  (∀ v, outcome (act v) = Return tt) →
  outcome (when_nonempty_field (PyDict d) k act) = Return tt.
Proof.
  intros Hact. unfold when_nonempty_field. simpl.
  destruct (has_key k d) eqn:Hk; [|done].
  apply has_key_true in Hk as [v Hv].
  unfold getitem. rewrite Hv, bind_ret.
  destruct (negb (is_empty_str v)); [apply Hact | done].
Qed.

Lemma when_nonempty_field_no_post r k act :
  (∀ v, without is_post (act v)) →
  without is_post (when_nonempty_field r k act).
Proof. intros Hact. unfold when_nonempty_field. quiet. apply Hact. Qed.

Lemma read_reply_no_post r : without is_post (read_reply r).
Proof.
  unfold read_reply, raise_for_status, loads.
  quiet; apply when_nonempty_field_no_post; intros; by apply without_tell.
Qed.

(** A reply that passes the status check and decodes to an object is what
    [_send_to_plotly] returns. *)
Lemma read_reply_dict r (d : gmap string pyval) :
  status_ok r →
  json_loads (content r) = Some (PyDict d) →
  outcome (read_reply r) = Return (PyDict d).
Proof.
  intros Hs Hj. unfold read_reply, raise_for_status.
  assert ((400 <=? status_code r)%Z && (status_code r <? 600)%Z = false) as ->.
  { apply andb_false_iff. unfold status_ok in Hs. lia. }
  rewrite bind_ret. unfold loads. rewrite Hj, bind_ret.
  rewrite !(bind_Return _ _ tt) by (by apply when_nonempty_field_dict).
  reflexivity.
Qed.

(** A reply with an error status never gets decoded. *)
Lemma read_reply_error_status r :
  (400 ≤ status_code r < 600)%Z →
  read_reply r = raise (HTTPError (status_code r)).
Proof.
  intros Hs. unfold read_reply, raise_for_status.
  assert ((400 <=? status_code r)%Z && (status_code r <? 600)%Z = true) as ->.
  { apply andb_true_iff. lia. }
  reflexivity.
Qed.

Lemma getitem_cases d k :
  (∃ v, d !! k = Some v ∧ getitem d k = ret v)
  ∨ (getitem d k = raise (KeyError k)).
Proof. unfold getitem. destruct (d !! k); eauto. Qed.

Lemma py_add_str_cases a b :
  (∃ s, py_add_str a b = ret s) ∨ (py_add_str a b = raise TypeError).
Proof. destruct a; simpl; eauto. Qed.

Lemma session_key_cases :
  (∃ u k, _get_session_username_and_key = ret (u, k))
  ∨ (∃ e, _get_session_username_and_key = raise e).
Proof.
  unfold _get_session_username_and_key.
  destruct (has_key "username" _credentials) eqn:H1;
    destruct (has_key "api_key" _credentials) eqn:H2; simpl.
  1: { apply has_key_true in H1 as [u Hu], H2 as [k Hk].
       unfold getitem. rewrite Hu, Hk. left. by exists u, k. }
  all: destruct (has_key "username" tools_get_credentials_file) eqn:H3;
    destruct (has_key "api_key" tools_get_credentials_file) eqn:H4; simpl;
    try (right; by eexists).
  all: apply has_key_true in H3 as [u Hu], H4 as [k Hk];
    unfold getitem; rewrite Hu, Hk; left; by exists u, k.
Qed.

(** [_send_to_plotly] either fails before anything leaves the process or
    makes one request and goes on with its reply. *)
Lemma send_to_plotly_cases figure plot_options :
  (∃ e, _send_to_plotly figure plot_options = raise e)
  ∨ (∃ url payload,
       _send_to_plotly figure plot_options
       = (let* r := post url payload None in read_reply r)).
Proof.
  unfold _send_to_plotly.
  destruct (has_key "figure" plot_options); [left; by eexists|].
  rewrite bind_ret.
  destruct session_key_cases as [(u & k & ->)|(e & ->)];
    [rewrite bind_ret | left; by eexists].
  destruct (getitem_cases plot_options "filename") as [(v1 & _ & ->)| ->];
    [rewrite bind_ret | left; by eexists].
  destruct (getitem_cases plot_options "fileopt") as [(v2 & _ & ->)| ->];
    [rewrite bind_ret | left; by eexists].
  destruct (getitem_cases plot_options "world_readable") as [(v3 & _ & ->)| ->];
    [rewrite bind_ret | left; by eexists].
  destruct (getitem_cases tools_get_config_file "plotly_domain")
    as [(dom & _ & ->)| ->]; [rewrite bind_ret | left; by eexists].
  destruct (py_add_str_cases dom "/clientresp") as [(url & ->)| ->];
    [rewrite bind_ret | left; by eexists].
  right. by eexists _, _.
Qed.

(** Up to the submission, [plot] either raises without having contacted
    the server, or has only looked the figure over and goes on to submit
    it. *)
Lemma plot_cases figure_or_data validate plot_options :
  (∃ l e, plot figure_or_data validate plot_options = (l, Raise e)
          ∧ Forall (fun ev => is_post ev = false) l)
  ∨ (∃ ws figure,
       Forall (fun ev => is_post ev = false) ws
       ∧ plot figure_or_data validate plot_options
         = ((ws, Return tt) >> plot_submit figure plot_options)).
Proof.
  unfold plot.
  assert (Hloop : ∀ entries, without is_post (look_over entries)).
  { intros. unfold look_over, check_points. quiet. }
  assert (Hfig : ∀ figure,
    (∃ l e, (let* _ := (if validate then
                match tools_validate (PyDict figure) (PyStr "Figure") with
                | None => ret tt
                | Some err =>
                    raise (PlotlyError (PyStr (invalid_figure_msg +:+ err)))
                end else ret tt) in
             let* data := getitem figure "data" in
             let* entries := py_iter data in
             look_over entries >> plot_submit figure plot_options) = (l, Raise e)
            ∧ Forall (fun ev => is_post ev = false) l)
    ∨ (∃ ws,
         Forall (fun ev => is_post ev = false) ws
         ∧ (let* _ := (if validate then
                match tools_validate (PyDict figure) (PyStr "Figure") with
                | None => ret tt
                | Some err =>
                    raise (PlotlyError (PyStr (invalid_figure_msg +:+ err)))
                end else ret tt) in
             let* data := getitem figure "data" in
             let* entries := py_iter data in
             look_over entries >> plot_submit figure plot_options)
           = ((ws, Return tt) >> plot_submit figure plot_options))).
  { intros figure.
    assert (Hdata :
      (∃ l e, (let* data := getitem figure "data" in
               let* entries := py_iter data in
               look_over entries >> plot_submit figure plot_options) = (l, Raise e)
              ∧ Forall (fun ev => is_post ev = false) l)
      ∨ (∃ ws,
           Forall (fun ev => is_post ev = false) ws
           ∧ (let* data := getitem figure "data" in
              let* entries := py_iter data in
              look_over entries >> plot_submit figure plot_options)
             = ((ws, Return tt) >> plot_submit figure plot_options))).
    { destruct (getitem_cases figure "data") as [(data & _ & ->)| ->];
        [rewrite bind_ret | left; by eexists _, _].
      assert (Hit : (∃ entries, py_iter data = ret entries)
                    ∨ py_iter data = raise TypeError)
        by (destruct data; simpl; eauto).
      destruct Hit as [(entries & ->)| ->];
        [rewrite bind_ret | left; by eexists _, _].
      specialize (Hloop entries).
      destruct (look_over entries) as [ws [[]|e]].
      - right. by exists ws.
      - left. by exists ws, e. }
    destruct validate; [|by rewrite bind_ret].
    destruct (tools_validate (PyDict figure) (PyStr "Figure"));
      [left; by eexists _, _ | by rewrite bind_ret]. }
  destruct figure_or_data as [| | | |l|d];
    try (left; by eexists _, _); rewrite bind_ret.
  - destruct (Hfig (<["data" := PyList l]> ∅)) as [?|(ws & ? & ?)];
      [by left | right; by eexists ws, _].
  - destruct (Hfig d) as [?|(ws & ? & ?)];
      [by left | right; by eexists ws, _].
Qed.

Lemma outcome_bind_Return {A B} (m : M A) (k : A → M B) a :
  outcome m = Return a → outcome (bind m k) = outcome (k a).
Proof. intros H. by rewrite (bind_Return _ _ a). Qed.

Lemma outcome_bind_Raise {A B} (m : M A) (k : A → M B) e :
  outcome m = Raise e → outcome (bind m k) = Raise e.
Proof. intros H. by rewrite (bind_Raise _ _ e). Qed.

Lemma no_post_not_In l url data hdrs :
  Forall (fun ev => is_post ev = false) l → ¬ In (HttpPost url data hdrs) l.
Proof.
  intros Hl Hin. rewrite Forall_forall in Hl.
  apply list_elem_of_In, Hl in Hin. discriminate.
Qed.

(** How [plot] ends is decided by the reply to its one request: if a
    request is in the log, the result of [plot] is that of reading the
    server's answer to it and interpreting what was read. *)
Lemma plot_outcome_from_post fod validate opts url data hdrs resp :
  In (HttpPost url data hdrs) (log (plot fod validate opts)) →
  requests_post url data hdrs = Return resp →
  outcome (plot fod validate opts)
  = outcome
      (let* res := read_reply resp in
       let* err := py_getitem res "error" in
       if is_empty_str err then
         let* auto_open :=
           getitem (_plot_option_logic _plot_options opts) "auto_open" in
         (if truthy auto_open then
            let* url := py_getitem res "url" in _open_url url
          else ret tt) >>
         py_getitem res "url"
       else raise (PlotlyAccountError err)).
Proof.
  intros Hin Hpost.
  destruct (plot_cases fod validate opts)
    as [(l & e & Hp & Hl)|(ws & figure & Hws & Hp)]; rewrite Hp in Hin |- *.
  { by apply no_post_not_In in Hin. }
  rewrite (bind_Return _ _ tt) in Hin |- * by done. simpl in Hin |- *.
  unfold plot_submit in Hin |- *.
  set (tail := fun res0 : pyval => bind (py_getitem res0 "error") _) in Hin |- *.
  assert (Htail : ∀ res0, without is_post (tail res0)).
  { intros res0. unfold tail, _open_url. quiet. }
  destruct (send_to_plotly_cases figure (_plot_option_logic _plot_options opts))
    as [(e & Hs)|(url' & payload & Hs)]; rewrite Hs in Hin |- *.
  { simpl in Hin. rewrite app_nil_r in Hin. by apply no_post_not_In in Hin. }
  assert (Hrest : url = url' ∧ data = payload ∧ hdrs = None).
  { apply in_app_or in Hin as [Hin|Hin];
      [by apply no_post_not_In in Hin|].
    unfold post in Hin at 1.
    destruct (requests_post url' payload None) as [r|e] eqn:Hreq.
    - rewrite (bind_Return _ _ r) in Hin by done. cbn [log fst app] in Hin.
      destruct (outcome (read_reply r)) as [res0|e] eqn:Hr.
      + rewrite (bind_Return _ _ res0) in Hin by (simpl; done).
        cbn [log fst app] in Hin. destruct Hin as [Heq|Hin].
        * by injection Heq as <- <- <-.
        * exfalso. apply in_app_or in Hin as [Hin|Hin].
          -- by apply (no_post_not_In _ _ _ _ (read_reply_no_post r)) in Hin.
          -- by apply (no_post_not_In _ _ _ _ (Htail res0)) in Hin.
      + rewrite (bind_Raise _ _ e) in Hin by (simpl; done).
        cbn [log fst app] in Hin. destruct Hin as [Heq|Hin].
        * by injection Heq as <- <- <-.
        * exfalso.
          by apply (no_post_not_In _ _ _ _ (read_reply_no_post r)) in Hin.
    - rewrite (bind_Raise _ _ e) in Hin by done.
      rewrite (bind_Raise _ _ e) in Hin by done.
      cbn [log fst app] in Hin. destruct Hin as [Heq|[]].
      by injection Heq as <- <- <-. }
  destruct Hrest as (<- & <- & ->).
  unfold post. rewrite Hpost.
  rewrite (bind_Return ([HttpPost url data None], Return resp) _ resp) by done.
  unfold bind, outcome. simpl. by destruct (read_reply resp) as [? []].
Qed.

Lemma plot_outcome_from_reply fod validate opts url data hdrs resp res :
  In (HttpPost url data hdrs) (log (plot fod validate opts)) →
  requests_post url data hdrs = Return resp →
  outcome (read_reply resp) = Return res →
  outcome (plot fod validate opts)
  = outcome
      (let* err := py_getitem res "error" in
       if is_empty_str err then
         let* auto_open :=
           getitem (_plot_option_logic _plot_options opts) "auto_open" in
         (if truthy auto_open then
            let* url := py_getitem res "url" in _open_url url
          else ret tt) >>
         py_getitem res "url"
       else raise (PlotlyAccountError err)).
Proof.
  intros Hin Hpost Hread.
  rewrite (plot_outcome_from_post _ _ _ _ _ _ _ Hin Hpost).
  by rewrite (outcome_bind_Return _ _ res).
Qed.


Lemma is_empty_str_true v : is_empty_str v = true ↔ v = PyStr EmptyString.
Proof.
  destruct v; simpl; try (split; [discriminate | congruence]).
  rewrite String.eqb_eq. split; congruence.
Qed.

(** Every default survives the merge, whatever overrides it. *)
Lemma plot_option_logic_keeps_defaults G' C k :
  is_Some (_DEFAULT_PLOT_OPTIONS !! k) →
  is_Some (_plot_option_logic G' C !! k).
Proof.
  intros [v Hv]. unfold _plot_option_logic, _plot_option_logic_from.
  assert (is_Some (update (update (update ∅ _DEFAULT_PLOT_OPTIONS) G') C !! k)).
  { rewrite merged_lookup. unfold by_precedence. rewrite Hv.
    destruct (C !! k), (G' !! k); by eexists. }
  destruct (_ && _); [|done].
  destruct (decide (k = "fileopt")) as [->|Hne].
  - rewrite lookup_insert_eq. by eexists.
  - by rewrite lookup_insert_ne.
Qed.

(** C4, amended: when the reply to the submission passes the HTTP status
    check and is a JSON object whose [error] is the empty string and which
    has a [url], [plot] returns that url (and so does not raise). *)
Theorem plot_returns_url fod validate opts url data hdrs resp
    (r : gmap string pyval) u :
  In (HttpPost url data hdrs) (log (plot fod validate opts)) →
  requests_post url data hdrs = Return resp →
  status_ok resp →
  json_loads (content resp) = Some (PyDict r) →
  r !! "error" = Some (PyStr EmptyString) →
  r !! "url" = Some u →
  outcome (plot fod validate opts) = Return u.
Proof.
  intros Hin Hpost Hstatus Hjson Herr Hurl.
  rewrite (plot_outcome_from_reply _ _ _ _ _ _ _ (PyDict r) Hin Hpost)
    by by apply read_reply_dict.
  simpl. unfold getitem at 1. rewrite Herr, bind_ret. simpl.
  destruct (plot_option_logic_keeps_defaults _plot_options opts "auto_open")
    as [ao Hao]; [by eexists|].
  unfold getitem at 1. rewrite Hao, bind_ret.
  unfold getitem. rewrite Hurl.
  by destruct (truthy ao).
Qed.

(** C5, amended: when the reply to the submission passes the HTTP status
    check and is a JSON object whose [error] is not the empty string,
    [plot] raises [PlotlyAccountError] carrying that [error]. *)
Theorem plot_raises_account_error fod validate opts url data hdrs resp
    (r : gmap string pyval) err :
  In (HttpPost url data hdrs) (log (plot fod validate opts)) →
  requests_post url data hdrs = Return resp →
  status_ok resp →
  json_loads (content resp) = Some (PyDict r) →
  r !! "error" = Some err →
  err ≠ PyStr EmptyString →
  outcome (plot fod validate opts) = Raise (PlotlyAccountError err).
Proof.
  intros Hin Hpost Hstatus Hjson Herr Hne.
  rewrite (plot_outcome_from_reply _ _ _ _ _ _ _ (PyDict r) Hin Hpost)
    by by apply read_reply_dict.
  simpl. unfold getitem at 1. rewrite Herr, bind_ret.
  destruct (is_empty_str err) eqn:He; [|done].
  by apply is_empty_str_true in He.
Qed.

(** A reply with an error status makes [plot] raise [HTTPError], whatever
    its body says. *)
Lemma plot_error_status fod validate opts url data hdrs resp :
  In (HttpPost url data hdrs) (log (plot fod validate opts)) →
  requests_post url data hdrs = Return resp →
  (400 ≤ status_code resp < 600)%Z →
  outcome (plot fod validate opts) = Raise (HTTPError (status_code resp)).
Proof.
  intros Hin Hpost Hstatus.
  rewrite (plot_outcome_from_post _ _ _ _ _ _ _ Hin Hpost).
  by rewrite read_reply_error_status.
Qed.

End PlotFacts.

(** *** The size warning *)



Section SizeWarning.
Context `{Ext : Externals} `{G : Globals}.





End SizeWarning.

(** *** Submissions against the sample server *)

(** Rewrites the log of a closed call to its value. *)
Ltac run_log :=
  match goal with
  | |- In _ ?l =>
      let l' := eval vm_compute in l in
      replace l with l' by (vm_compute; reflexivity)
  end.

Lemma plot_returns_url_witness :
  outcome (@plot (Sample.externals (Sample.reply 200 Sample.ok_text))
                 Sample.signed_in
                 (PyList [PyDict Sample.scatter_trace]) true ∅)
  = Return (PyStr "https://plot.ly/~demo/1").
Proof.
  eapply (@plot_returns_url
            (Sample.externals (Sample.reply 200 Sample.ok_text))
            Sample.signed_in _ _ _ _ _ _
            (Sample.reply 200 Sample.ok_text) Sample.ok_reply).
  - run_log. left. reflexivity.
  - reflexivity.
  - unfold status_ok. simpl. lia.
  - vm_compute. reflexivity.
  - vm_compute. reflexivity.
  - vm_compute. reflexivity.
Defined.

Lemma plot_raises_account_error_witness :
  outcome (@plot (Sample.externals (Sample.reply 200 Sample.error_text))
                 Sample.signed_in
                 (PyList [PyDict Sample.scatter_trace]) true ∅)
  = Raise (PlotlyAccountError (PyStr "Aw, snap!")).
Proof.
  eapply (@plot_raises_account_error
            (Sample.externals (Sample.reply 200 Sample.error_text))
            Sample.signed_in _ _ _ _ _ _
            (Sample.reply 200 Sample.error_text) Sample.error_reply).
  - run_log. left. reflexivity.
  - reflexivity.
  - unfold status_ok. simpl. lia.
  - vm_compute. reflexivity.
  - vm_compute. reflexivity.
  - discriminate.
Defined.

(** C4 as stated fails: a reply whose body is an object with an empty
    [error] and a [url], sent with status 500, makes [plot] raise. *)
Lemma plot_empty_error_status_500_raises :
  let Ext := Sample.externals (Sample.reply 500 Sample.ok_text) in
  let call := @plot Ext Sample.signed_in
                (PyList [PyDict Sample.scatter_trace]) true ∅ in
  (∃ url data,
     In (HttpPost url data None) (log call)
     ∧ requests_post url data None = Return (Sample.reply 500 Sample.ok_text))
  ∧ json_loads (content (Sample.reply 500 Sample.ok_text))
    = Some (PyDict Sample.ok_reply)
  ∧ Sample.ok_reply !! "error" = Some (PyStr EmptyString)
  ∧ Sample.ok_reply !! "url" = Some (PyStr "https://plot.ly/~demo/1")
  ∧ outcome call = Raise (HTTPError 500)
  ∧ outcome call ≠ Return (PyStr "https://plot.ly/~demo/1").
Proof.
  intros Ext call. split_and!.
  - eexists _, _. split; [|reflexivity]. unfold call. run_log.
    left. reflexivity.
  - vm_compute. reflexivity.
  - vm_compute. reflexivity.
  - vm_compute. reflexivity.
  - vm_compute. reflexivity.
  - vm_compute. discriminate.
Qed.

(** C5 as stated fails: a reply whose body is an object with a non-empty
    [error], sent with status 500, makes [plot] raise [HTTPError], not
    [PlotlyAccountError] with that [error]. *)
Lemma plot_error_body_status_500_raises_http_error :
  let Ext := Sample.externals (Sample.reply 500 Sample.error_text) in
  let call := @plot Ext Sample.signed_in
                (PyList [PyDict Sample.scatter_trace]) true ∅ in
  (∃ url data,
     In (HttpPost url data None) (log call)
     ∧ requests_post url data None
       = Return (Sample.reply 500 Sample.error_text))
  ∧ json_loads (content (Sample.reply 500 Sample.error_text))
    = Some (PyDict Sample.error_reply)
  ∧ Sample.error_reply !! "error" = Some (PyStr "Aw, snap!")
  ∧ PyStr "Aw, snap!" ≠ PyStr EmptyString
  ∧ outcome call = Raise (HTTPError 500)
  ∧ outcome call ≠ Raise (PlotlyAccountError (PyStr "Aw, snap!")).
Proof.
  intros Ext call. split_and!.
  - eexists _, _. split; [|reflexivity]. unfold call. run_log.
    left. reflexivity.
  - vm_compute. reflexivity.
  - vm_compute. reflexivity.
  - discriminate.
  - vm_compute. reflexivity.
  - vm_compute. discriminate.
Qed.



(** Likewise signed in, when a later data entry is no dict: the warning of
    the first entry is followed by the [AttributeError] of [entry.items()],
    and nothing is sent. *)
Lemma plot_warns_then_fails_on_entry :
  let figure := PyList [PyDict (<["y" := PyList (repeat (PyInt 0)
                                                  (Z.to_nat 40001))]> ∅);
                        PyInt 3] in
  let call := @plot (Sample.externals (Sample.reply 200 Sample.ok_text))
                Sample.signed_in figure false ∅ in
  log call = [Warn (PyStr too_many_points_msg)]
  ∧ outcome call = Raise AttributeError.
Proof.
  intros figure call. split; vm_compute; reflexivity.
Qed.

(** ** Streams *)

Section StreamFacts.
Context `{Ext : Externals} `{CR : ChunkedRequests}.

Lemma stream_object_has_type trace :
  is_Some (stream_object_of trace !! "type").
Proof.
  unfold stream_object_of.
  destruct (has_key "type" (update ∅ trace)) eqn:Hk.
  - by apply has_key_true.
  - rewrite lookup_insert_eq. by eexists.
Qed.

(** Before the socket is touched, [write] emits nothing and can only fail
    with the error of a check that did not pass. *)
Lemma write_jdata_cases trace layout validate :
  (∃ jdata, write_jdata trace layout validate = ret jdata)
  ∨ (∃ msg, write_jdata trace layout validate
            = raise (PlotlyError (PyStr msg))
            ∧ validate = true ∧ ¬ passes_validation trace layout).
Proof.
  unfold write_jdata. fold (stream_object_of trace).
  destruct (stream_object_has_type trace) as [ty Hty].
  unfold getitem. rewrite Hty, bind_ret.
  destruct validate; [|left; by eexists].
  unfold revalidate.
  destruct (tools_validate (PyDict (stream_object_of trace)) ty) as [e1|] eqn:H1.
  { right. eexists. split_and!; [done..|].
    intros (ty' & Hty' & Hv & _). congruence. }
  rewrite bind_ret.
  destruct (tools_validate_stream (PyDict (stream_object_of trace)) ty)
    as [e2|] eqn:H2.
  { right. eexists. split_and!; [done..|].
    intros (ty' & Hty' & _ & Hv & _). congruence. }
  rewrite bind_ret.
  destruct layout as [lay|]; [|left; by eexists].
  destruct (tools_validate lay (PyStr "Layout")) as [e3|] eqn:H3.
  { right. eexists. split_and!; [done..|].
    intros (ty' & Hty' & _ & _ & Hv). congruence. }
  left. by eexists.
Qed.

Lemma do_call_connected self c :
  connected (fst (do_call self c)) = connected self.
Proof.
  destruct c as [|trace layout validate reconnect_on|]; simpl.
  - unfold Stream_open.
    destruct (getitem tools_get_config_file "plotly_streaming_domain")
      as [l [url|e]]; [|done].
    by destruct (chunked_Stream _ _ _).
  - unfold Stream_write.
    destruct (write_jdata trace layout validate) as [l [jdata|e]]; [|done].
    destruct (_stream self) as [c|]; [|done].
    by destruct (chunked_write c jdata reconnect_on).
  - unfold Stream_close.
    destruct (_stream self) as [c|]; [|done].
    by destruct (chunked_close c).
Qed.

Lemma do_call_keeps_unopened self c :
  is_open_call c = false → _stream self = None →
  _stream (fst (do_call self c)) = None.
Proof.
  intros Hc Hs.
  destruct c as [|trace layout validate reconnect_on|]; [done| |]; simpl.
  - unfold Stream_write.
    destruct (write_jdata trace layout validate) as [l [jdata|e]]; [|done].
    by rewrite Hs.
  - unfold Stream_close. by rewrite Hs.
Qed.

(** A handle on which [open] was never called has no socket. *)
Lemma never_opened_has_no_socket stream_id cs :
  forallb (fun c => negb (is_open_call c)) cs = true →
  _stream (after_calls (Stream__init__ stream_id) cs) = None.
Proof.
  unfold after_calls.
  assert (Hgen : ∀ s, _stream s = None →
            forallb (fun c => negb (is_open_call c)) cs = true →
            _stream (fold_left (fun s c => fst (do_call s c)) cs s) = None).
  { induction cs as [|c cs IH]; intros s Hs Hcs; [done|]. simpl in *.
    apply andb_true_iff in Hcs as [Hc Hcs].
    apply IH; [|done]. apply do_call_keeps_unopened; [|done].
    by apply negb_true_iff. }
  intros Hcs. by apply Hgen.
Qed.

Lemma close_unopened self :
  _stream self = None →
  Stream_close self = (self, ([], Raise (PlotlyError (PyStr close_not_open_msg)))).
Proof. intros Hs. unfold Stream_close. by rewrite Hs. Qed.

Lemma write_unopened self trace layout validate reconnect_on :
  _stream self = None →
  ∃ msg,
    Stream_write self trace layout validate reconnect_on
    = (self, ([], Raise (PlotlyError (PyStr msg))))
    ∧ (validate = false ∨ passes_validation trace layout →
       msg = write_not_open_msg).
Proof.
  intros Hs. unfold Stream_write.
  destruct (write_jdata_cases trace layout validate)
    as [(jdata & ->)|(msg & -> & Hv & Hnp)].
  - exists write_not_open_msg. rewrite Hs. by split.
  - exists msg. split; [done|]. intros [Hf|Hp]; [congruence | done].
Qed.

(** With validation on, the first check that fails decides what [write]
    raises, before the socket is looked at. *)
Lemma write_validation_error self trace layout reconnect_on ty :
  stream_object_of trace !! "type" = Some ty →
  (∀ err,
     tools_validate (PyDict (stream_object_of trace)) ty = Some err →
     Stream_write self trace layout true reconnect_on
     = (self, raise (PlotlyError (PyStr (stream_invalid_msg ty err)))))
  ∧ (∀ err,
       tools_validate (PyDict (stream_object_of trace)) ty = None →
       tools_validate_stream (PyDict (stream_object_of trace)) ty = Some err →
       Stream_write self trace layout true reconnect_on
       = (self, raise (PlotlyError (PyStr (stream_unstreamable_msg ty err)))))
  ∧ (∀ lay err,
       tools_validate (PyDict (stream_object_of trace)) ty = None →
       tools_validate_stream (PyDict (stream_object_of trace)) ty = None →
       layout = Some lay →
       tools_validate lay (PyStr "Layout") = Some err →
       Stream_write self trace layout true reconnect_on
       = (self, raise (PlotlyError (PyStr (layout_invalid_msg err))))).
Proof.
  intros Hty. unfold Stream_write, write_jdata.
  fold (stream_object_of trace).
  unfold getitem. rewrite Hty, bind_ret. unfold revalidate.
  split_and!.
  - intros err ->. done.
  - intros err -> ->. done.
  - intros lay err -> -> -> ->. done.
Qed.

(** C3, amended: on a handle on which [open] was never called, [close]
    raises the stream-not-open [PlotlyError] and [write] raises a
    [PlotlyError]; neither sends anything nor changes the handle.  The
    error of [write] is the stream-not-open one whenever validation is off
    or passes; when validation is on and a check fails, it is the error of
    the first check that failed (the object, then whether it can be
    streamed, then the layout), raised before the socket is looked at. *)
Theorem unopened_stream_write_close_fail stream_id cs
    trace layout validate reconnect_on :
  forallb (fun c => negb (is_open_call c)) cs = true →
  let self := after_calls (Stream__init__ stream_id) cs in
  Stream_close self
  = (self, ([], Raise (PlotlyError (PyStr close_not_open_msg))))
  ∧ ∃ msg,
      Stream_write self trace layout validate reconnect_on
      = (self, ([], Raise (PlotlyError (PyStr msg))))
      ∧ (validate = false ∨ passes_validation trace layout →
         msg = write_not_open_msg)
      ∧ (validate = true →
         ∀ ty, stream_object_of trace !! "type" = Some ty →
           (∀ err,
              tools_validate (PyDict (stream_object_of trace)) ty
              = Some err →
              msg = stream_invalid_msg ty err)
           ∧ (∀ err,
                tools_validate (PyDict (stream_object_of trace)) ty = None →
                tools_validate_stream (PyDict (stream_object_of trace)) ty
                = Some err →
                msg = stream_unstreamable_msg ty err)
           ∧ (∀ lay err,
                tools_validate (PyDict (stream_object_of trace)) ty = None →
                tools_validate_stream (PyDict (stream_object_of trace)) ty
                = None →
                layout = Some lay →
                tools_validate lay (PyStr "Layout") = Some err →
                msg = layout_invalid_msg err)).
Proof.
  intros Hcs self.
  pose proof (never_opened_has_no_socket stream_id cs Hcs) as Hs.
  split; [by apply close_unopened|].
  destruct (write_unopened self trace layout validate reconnect_on Hs)
    as (msg & Hw & Hmsg).
  exists msg. split_and!; [done..|].
  intros -> ty Hty.
  destruct (write_validation_error self trace layout reconnect_on ty Hty)
    as (H1 & H2 & H3).
  split_and!.
  - intros err He. rewrite (H1 err He) in Hw. by injection Hw as <-.
  - intros err He1 He2. rewrite (H2 err He1 He2) in Hw.
    by injection Hw as <-.
  - intros lay err He1 He2 Hl He3. rewrite (H3 lay err He1 He2 Hl He3) in Hw.
    by injection Hw as <-.
Qed.

(** C9: [connected] is false from construction on, whatever is called on
    the handle: no method assigns it. *)
Theorem stream_connected_stays_false stream_id cs :
  connected (Stream__init__ stream_id) = false
  ∧ connected (after_calls (Stream__init__ stream_id) cs) = false.
Proof.
  split; [done|]. unfold after_calls.
  assert (Hgen : ∀ s, connected
            (fold_left (fun s c => fst (do_call s c)) cs s) = connected s).
  { induction cs as [|c cs IH]; intros s; [done|]. simpl.
    by rewrite IH, do_call_connected. }
  by rewrite Hgen.
Qed.

End StreamFacts.

Lemma unopened_stream_write_close_fail_witness :
  let Ext := Sample.externals (Sample.reply 200 Sample.ok_text) in
  let trace : gmap string pyval := <["type" := PyStr "nonsense"]> ∅ in
  let reconnect_on := [PyInt 200; PyStr EmptyString; PyInt 408] in
  let self := @after_calls Ext Sample.socket (Stream__init__ "token")
                [CallClose] in
  @Stream_close Sample.socket self
  = (self, ([], Raise (PlotlyError (PyStr close_not_open_msg))))
  ∧ ∃ msg,
      @Stream_write Ext Sample.socket self trace None true reconnect_on
      = (self, ([], Raise (PlotlyError (PyStr msg))))
      ∧ (true = false ∨ @passes_validation Ext trace None →
         msg = write_not_open_msg)
      ∧ (true = true →
         ∀ ty, stream_object_of trace !! "type" = Some ty →
           (∀ err,
              tools_validate (PyDict (stream_object_of trace)) ty
              = Some err →
              msg = @stream_invalid_msg Ext ty err)
           ∧ (∀ err,
                tools_validate (PyDict (stream_object_of trace)) ty = None →
                tools_validate_stream (PyDict (stream_object_of trace)) ty
                = Some err →
                msg = @stream_unstreamable_msg Ext ty err)
           ∧ (∀ lay err,
                tools_validate (PyDict (stream_object_of trace)) ty = None →
                tools_validate_stream (PyDict (stream_object_of trace)) ty
                = None →
                @None pyval = Some lay →
                tools_validate lay (PyStr "Layout") = Some err →
                msg = layout_invalid_msg err)).
Proof.
  intros Ext trace reconnect_on.
  apply (@unopened_stream_write_close_fail Ext Sample.socket "token"
           [CallClose] trace None true reconnect_on).
  reflexivity.
Defined.

(** C3 as stated fails: with validation on, a trace the validator rejects
    makes [write] on an unopened handle raise the validation error, not
    the stream-not-open one. *)
Lemma unopened_write_invalid_trace_raises_validation_error :
  let Ext := Sample.externals (Sample.reply 200 Sample.ok_text) in
  let trace : gmap string pyval := <["type" := PyStr "nonsense"]> ∅ in
  _stream (@Stream__init__ Sample.socket "token") = None
  ∧ snd (@Stream_write Ext Sample.socket (Stream__init__ "token")
           trace None true [PyInt 200; PyStr EmptyString; PyInt 408])
    = ([], Raise (PlotlyError (PyStr
         (@stream_invalid_msg Ext (PyStr "nonsense")
            "not a recognizable graph_obj."))))
  ∧ snd (@Stream_write Ext Sample.socket (Stream__init__ "token")
           trace None true [PyInt 200; PyStr EmptyString; PyInt 408])
    ≠ ([], Raise (PlotlyError (PyStr write_not_open_msg))).
Proof.
  intros Ext trace. split_and!.
  - reflexivity.
  - vm_compute. reflexivity.
  - vm_compute. discriminate.
Qed.

(** ** Grids *)

Section GridFacts.
Context `{Ext : Externals} `{G : Globals}.

(** [_parse_grid_id_args] emits nothing; it returns the id, or raises
    [InputError], or raises what reading a [grid_url] raised. *)
Lemma parse_grid_id_args_cases grid grid_url grid_id :
  (∃ i, _parse_grid_id_args grid grid_url grid_id = ret i)
  ∨ (∃ msg, _parse_grid_id_args grid grid_url grid_id
            = raise (InputError msg))
  ∨ (∃ u e, grid_url = Some u ∧ grid_id_of_url u = Raise e
            ∧ _parse_grid_id_args grid grid_url grid_id = raise e).
Proof.
  unfold _parse_grid_id_args.
  destruct (match grid with Some g => Grid_id g | None => None end) as [i0|],
    grid_url as [u|], grid_id as [i|]; simpl;
    try (right; left; by eexists); try (left; by eexists).
  destruct (grid_id_of_url u) as [i|e] eqn:Hu.
  - left. by eexists.
  - right. right. by exists u, e.
Qed.

(** The row check stops at the first row of the wrong length, before
    anything else happens. *)
Lemma row_check_raises rows n i :
  row_mismatch rows n →
  ∃ msg,
    for_each (enumerate_from i rows) (fun '(row_i, row) =>
      if negb (Nat.eqb (length row) n) then
        raise (InputError (row_length_msg row_i (length row) n))
      else ret tt)
    = raise (InputError msg).
Proof.
  revert i. induction rows as [|row rows IH]; intros i (r & Hin & Hne).
  { destruct Hin. }
  simpl. destruct (Nat.eqb (length row) n) eqn:Hlen; simpl.
  - apply Nat.eqb_eq in Hlen. destruct Hin as [->|Hin]; [done|].
    rewrite bind_ret. apply IH. by exists r.
  - by eexists.
Qed.

(** With a local grid object holding at least one column, a row of the
    wrong length stops the call before any request. *)
Lemma append_rows_local_grid_raises rows g grid_url grid_id store :
  Grid_columns g ≠ [] →
  row_mismatch rows (length (Grid_columns g)) →
  without is_post (append_rows rows (Some g) grid_url grid_id store)
  ∧ ∃ e, outcome (append_rows rows (Some g) grid_url grid_id store) = Raise e
      ∧ ((∃ msg, e = InputError msg)
         ∨ (∃ u, grid_url = Some u ∧ grid_id_of_url u = Raise e)).
Proof.
  intros Hcols Hrows. unfold append_rows.
  destruct (parse_grid_id_args_cases (Some g) grid_url grid_id)
    as [(i & ->)|[(msg & ->)|(u & e & Hu & He & ->)]].
  - rewrite bind_ret.
    assert (grid_truthy (Some g) = true) as ->.
    { simpl. by destruct (Grid_columns g). }
    destruct (row_check_raises rows (length (Grid_columns g)) 0 Hrows)
      as [msg ->].
    split; [constructor|]. exists (InputError msg). split; [done|].
    left. by eexists.
  - split; [constructor|]. exists (InputError msg). split; [done|].
    left. by eexists.
  - split; [constructor|]. exists e. split; [done|]. right. by exists u.
Qed.

(** With the grid named by its id or its url alone, the rows go to the
    server as they are, whatever their lengths. *)
Lemma append_rows_named_grid_posts rows grid_url grid_id store i u k :
  (grid_url = None ∧ grid_id = Some i)
  ∨ (∃ url, grid_url = Some url ∧ grid_id = None
            ∧ grid_id_of_url url = Return i) →
  _get_session_username_and_key = ret (u, k) →
  ∃ hdrs l,
    log (append_rows rows None grid_url grid_id store)
    = HttpPost (_api_url +:+ "/" +:+ i +:+ "/row")
        (PyDict (<["rows" := PyStr (json_dumps (PyList (map PyList rows)))]> ∅))
        (Some hdrs) :: l.
Proof.
  intros Hname Hcred. unfold append_rows.
  assert (_parse_grid_id_args None grid_url grid_id = ret (Some i)) as ->.
  { unfold _parse_grid_id_args.
    destruct Hname as [[-> ->]|(url & -> & -> & Hurl)]; simpl; [done|].
    by rewrite Hurl. }
  rewrite bind_ret. simpl grid_truthy. cbv iota. rewrite bind_ret.
  unfold _headers. rewrite Hcred, !bind_ret. simpl format_opt.
  match goal with
  | |- ∃ _ _, log (bind (post _ _ (Some ?h)) ?k1) = _ =>
      destruct (log_bind_prefix
                  (post (_api_url +:+ "/" +:+ i +:+ "/row")
                     (PyDict (<["rows" := PyStr (json_dumps
                                  (PyList (map PyList rows)))]> ∅))
                     (Some h)) k1) as [l ->];
      exists h, l
  end.
  reflexivity.
Qed.

(** C6, amended: when [append_rows] is given a local grid object holding
    at least one column and some row's length differs from the grid's
    column count, the call raises before any request is made, and what it
    raises is [InputError] (unless reading a [grid_url] passed along with
    the grid already raised something else).  When the grid is named only
    by [grid_id] or only by [grid_url], no row length is checked: with
    credentials at hand the rows are posted as they are, whatever their
    lengths. *)
Theorem append_rows_checks_rows_of_local_grid rows grid_url grid_id store :
  (∀ g,
     Grid_columns g ≠ [] →
     row_mismatch rows (length (Grid_columns g)) →
     without is_post (append_rows rows (Some g) grid_url grid_id store)
     ∧ ∃ e, outcome (append_rows rows (Some g) grid_url grid_id store)
            = Raise e
         ∧ ((∃ msg, e = InputError msg)
            ∨ (∃ u, grid_url = Some u ∧ grid_id_of_url u = Raise e)))
  ∧ (∀ i u k,
       (grid_url = None ∧ grid_id = Some i)
       ∨ (∃ url, grid_url = Some url ∧ grid_id = None
                 ∧ grid_id_of_url url = Return i) →
       _get_session_username_and_key = ret (u, k) →
       ∃ hdrs l,
         log (append_rows rows None grid_url grid_id store)
         = HttpPost (_api_url +:+ "/" +:+ i +:+ "/row")
             (PyDict (<["rows" :=
                PyStr (json_dumps (PyList (map PyList rows)))]> ∅))
             (Some hdrs) :: l).
Proof.
  split.
  - intros g. apply append_rows_local_grid_raises.
  - intros i u k. apply append_rows_named_grid_posts.
Qed.

End GridFacts.

Lemma append_rows_checks_rows_of_local_grid_witness :
  let Ext := Sample.externals (Sample.reply 200 Sample.ok_text) in
  let rows := [[PyInt 3; PyInt 4]] in
  (let call := @append_rows Ext Sample.signed_in rows
                 (Some Sample.one_column) None None Sample.data_lists in
   without is_post call
   ∧ ∃ e, outcome call = Raise e
       ∧ ((∃ msg, e = InputError msg)
          ∨ (∃ u, None = Some u ∧ grid_id_of_url u = Raise e)))
  ∧ (∃ hdrs l,
       log (@append_rows Ext Sample.signed_in rows None
              (Some "https://plot.ly/~demo/7") None Sample.data_lists)
       = HttpPost (_api_url +:+ "/" +:+ "https://plot.ly/~demo/7" +:+ "/row")
           (PyDict (<["rows" :=
              PyStr (json_dumps (PyList (map PyList rows)))]> ∅))
           (Some hdrs) :: l).
Proof.
  intros Ext rows. split.
  - apply (proj1 (@append_rows_checks_rows_of_local_grid Ext Sample.signed_in
                    rows None None Sample.data_lists) Sample.one_column).
    + discriminate.
    + exists [PyInt 3; PyInt 4]. split; [by left | simpl; lia].
  - apply (proj2 (@append_rows_checks_rows_of_local_grid Ext Sample.signed_in
                    rows (Some "https://plot.ly/~demo/7") None
                    Sample.data_lists)
             "https://plot.ly/~demo/7" (PyStr "demo") (PyStr "secret")).
    + right. exists "https://plot.ly/~demo/7". by split_and!.
    + vm_compute. reflexivity.
Defined.

(** C6 as stated fails: the grid can be named by its id alone, and then no
    row is checked; a row of two entries for the one-column grid
    [demo:7] goes to the server. *)
Lemma append_rows_by_id_posts_mismatched_row :
  let Ext := Sample.externals (Sample.reply 200 Sample.ok_text) in
  let rows := [[PyInt 3; PyInt 4]] in
  let call := @append_rows Ext Sample.signed_in rows None None
                (Grid_id Sample.one_column) Sample.data_lists in
  row_mismatch rows (length (Grid_columns Sample.one_column))
  ∧ (∃ data hdrs,
       In (HttpPost "https://api-local.plot.ly/v2/grids/demo:7/row"
                    data hdrs) (log call))
  ∧ outcome call = Return Sample.data_lists.
Proof.
  intros Ext rows call. split_and!.
  - exists [PyInt 3; PyInt 4]. split; [by left | simpl; lia].
  - eexists _, _. unfold call. run_log. left. reflexivity.
  - vm_compute. reflexivity.
Qed.

(** Nor is a row checked against a local grid that holds no column: the
    grid object is then false in the condition that guards the check. *)
Lemma append_rows_empty_grid_posts_mismatched_row :
  let Ext := Sample.externals (Sample.reply 200 Sample.ok_text) in
  let rows := [[PyInt 3]] in
  let call := @append_rows Ext Sample.signed_in rows
                (Some Sample.no_column) None None Sample.data_lists in
  row_mismatch rows (length (Grid_columns Sample.no_column))
  ∧ (∃ data hdrs,
       In (HttpPost "https://api-local.plot.ly/v2/grids/demo:8/row"
                    data hdrs) (log call))
  ∧ outcome call = Return Sample.data_lists.
Proof.
  intros Ext rows call. split_and!.
  - exists [PyInt 3]. split; [by left | simpl; lia].
  - eexists _, _. unfold call. run_log. left. reflexivity.
  - vm_compute. reflexivity.
Qed.

(** ** Static images *)

Section ImageFacts.
Context `{Ext : Externals} `{G : Globals}.

(** With a known format and credentials at hand, an argument that is
    neither a dict nor a list makes [image.get] fail on the unbound local
    [figure], before any request. *)
Lemma image_get_neither_dict_nor_list fod format width height u k :
  figure_of fod = None →
  in_strings format ["png"; "svg"; "jpeg"; "pdf"] = true →
  _validation_key_logic = ret (u, k) →
  image_get fod format width height = raise (UnboundLocalError "figure").
Proof.
  intros Hfig Hfmt Hkey. unfold image_get.
  rewrite Hfmt. simpl negb. cbv iota. rewrite bind_ret, Hkey, bind_ret.
  by destruct fod.
Qed.

End ImageFacts.

(** C10: there is an input of [image.get], neither a dict nor a list and
    with a valid format, on which it raises the name error of the unbound
    local [figure], not a [PlotlyError]. *)
Theorem image_get_unbound_figure :
  ∃ (Ext : Externals) (G : Globals) figure_or_data format,
    (∀ d, figure_or_data ≠ PyDict d)
    ∧ (∀ l, figure_or_data ≠ PyList l)
    ∧ in_strings format ["png"; "svg"; "jpeg"; "pdf"] = true
    ∧ @image_get Ext G figure_or_data format None None
      = raise (UnboundLocalError "figure")
    ∧ ∀ msg, outcome (@image_get Ext G figure_or_data format None None)
             ≠ Raise (PlotlyError msg).
Proof.
  exists (Sample.externals (Sample.reply 200 Sample.ok_text)),
    Sample.signed_in, (PyInt 5), (PyStr "png").
  assert (H : @image_get (Sample.externals (Sample.reply 200 Sample.ok_text))
                Sample.signed_in (PyInt 5) (PyStr "png") None None
              = raise (UnboundLocalError "figure")).
  { apply (@image_get_neither_dict_nor_list _ _ _ _ _ _
             (PyStr "demo") (PyStr "secret")); [done..|].
    vm_compute. reflexivity. }
  split_and!; [done..|]. intros msg. by rewrite H.
Qed.

(** ** Module-level state *)

Module ModuleStateFacts.
Import ModuleState.

Lemma mutate_names l st m :
  _credentials (mutate l st m) = _credentials st
  ∧ _plot_options (mutate l st m) = _plot_options st.
Proof. done. Qed.

Lemma mutate_elsewhere l l' st m :
  l ≠ l' → heap (mutate l st m) !! l' = heap st !! l'.
Proof. intros Hne. simpl. by apply lookup_alter_ne. Qed.

Lemma mutate_all_elsewhere l l' ms st :
  l ≠ l' →
  heap (mutate_all l ms st) !! l' = heap st !! l'
  ∧ _credentials (mutate_all l ms st) = _credentials st
  ∧ _plot_options (mutate_all l ms st) = _plot_options st.
Proof.
  intros Hne. unfold mutate_all. revert st.
  induction ms as [|m ms IH]; intros st; [done|]. simpl.
  destruct (IH (mutate l st m)) as (-> & -> & ->).
  by rewrite mutate_elsewhere.
Qed.

(** A new object is none of the old ones, and leaves them as they are. *)
Lemma alloc_fresh d st l' :
  is_Some (heap st !! l') → fst (alloc d st) ≠ l'.
Proof.
  intros Hl' Heq. apply elem_of_dom in Hl'.
  apply (is_fresh (dom (heap st))). simpl in Heq. by rewrite Heq.
Qed.

Lemma alloc_keeps d st l' :
  is_Some (heap st !! l') →
  heap (snd (alloc d st)) !! l' = heap st !! l'.
Proof.
  intros Hl'. simpl. apply lookup_insert_ne.
  by apply (alloc_fresh d st l').
Qed.

Lemma alloc_holds d st :
  heap (snd (alloc d st)) !! fst (alloc d st) = Some d.
Proof. simpl. apply lookup_insert_eq. Qed.

(** Whatever is done to a newly made object, the module's own two are as
    before. *)
Lemma alloc_then_mutate d st ms :
  bound st →
  same_module_state st
    (mutate_all (fst (alloc d st)) ms (snd (alloc d st))).
Proof.
  intros [Hc Hp]. unfold same_module_state.
  destruct (mutate_all_elsewhere (fst (alloc d st)) (_credentials st) ms
              (snd (alloc d st))) as (Hh1 & Hn1 & Hn2);
    [by apply alloc_fresh|].
  destruct (mutate_all_elsewhere (fst (alloc d st)) (_plot_options st) ms
              (snd (alloc d st))) as (Hh2 & _ & _);
    [by apply alloc_fresh|].
  split_and!.
  - by rewrite Hn1.
  - by rewrite Hn2.
  - rewrite Hh1. by apply alloc_keeps.
  - rewrite Hh2. by apply alloc_keeps.
Qed.

(** C8: [get_plot_options] and [get_credentials] return copies.  The
    object returned by [get_plot_options] holds what [_plot_options]
    holds, and so does the one returned by [get_credentials] for
    [_credentials] once a user name and key are set; and whatever sequence
    of mutations is applied to a returned mapping, [_plot_options] and
    [_credentials] are bound to the same objects holding the same
    entries. *)
Theorem getters_return_copies st credentials_file ms :
  bound st →
  (heap (snd (get_plot_options st)) !! fst (get_plot_options st)
   = heap st !! _plot_options st
   ∧ same_module_state st
       (mutate_all (fst (get_plot_options st)) ms
                   (snd (get_plot_options st))))
  ∧ ((is_Some (deref st (_credentials st) !! "username")
      ∧ is_Some (deref st (_credentials st) !! "api_key") →
      heap (snd (get_credentials credentials_file st))
        !! fst (get_credentials credentials_file st)
      = heap st !! _credentials st)
     ∧ same_module_state st
         (mutate_all (fst (get_credentials credentials_file st)) ms
                     (snd (get_credentials credentials_file st)))).
Proof.
  intros Hb. pose proof Hb as [[c Hc] [o Ho]]. split_and!.
  - unfold get_plot_options, copy_copy. rewrite alloc_holds.
    unfold deref. by rewrite Ho.
  - by apply alloc_then_mutate.
  - intros [Hu Hk]. unfold get_credentials.
    rewrite !bool_decide_eq_true_2 by done. simpl andb. cbv iota.
    unfold copy_copy. rewrite alloc_holds. unfold deref. by rewrite Hc.
  - unfold get_credentials, copy_copy.
    destruct (_ && _); by apply alloc_then_mutate.
Qed.

(** The copy is shallow: a slot that refers to another object refers to
    the same object in the copy. *)
Lemma get_plot_options_shares_values st k l :
  bound st →
  deref st (_plot_options st) !! k = Some (Ref l) →
  deref (snd (get_plot_options st)) (fst (get_plot_options st)) !! k
  = Some (Ref l).
Proof.
  intros Hb Hk. unfold get_plot_options, copy_copy, deref at 1.
  by rewrite alloc_holds.
Qed.

End ModuleStateFacts.

Lemma getters_return_copies_witness :
  let st :=
    ModuleState.update_plot_options
      (<["fileopt" := ModuleState.Imm (PyStr "extend")]> ∅)
      (ModuleState.sign_in (ModuleState.Imm (PyStr "demo"))
         (ModuleState.Imm (PyStr "secret")) ModuleState.initial) in
  let ms := [ModuleState.SetItem "fileopt" (ModuleState.Imm (PyStr "new"));
             ModuleState.DelItem "username"; ModuleState.Clear] in
  (ModuleState.heap (snd (ModuleState.get_plot_options st))
     !! fst (ModuleState.get_plot_options st)
   = ModuleState.heap st !! ModuleState._plot_options st
   ∧ same_module_state st
       (ModuleState.mutate_all (fst (ModuleState.get_plot_options st)) ms
          (snd (ModuleState.get_plot_options st))))
  ∧ ((is_Some (ModuleState.deref st (ModuleState._credentials st)
                 !! "username")
      ∧ is_Some (ModuleState.deref st (ModuleState._credentials st)
                   !! "api_key") →
      ModuleState.heap (snd (ModuleState.get_credentials ∅ st))
        !! fst (ModuleState.get_credentials ∅ st)
      = ModuleState.heap st !! ModuleState._credentials st)
     ∧ same_module_state st
         (ModuleState.mutate_all (fst (ModuleState.get_credentials ∅ st)) ms
            (snd (ModuleState.get_credentials ∅ st)))).
Proof.
  intros st ms.
  apply (ModuleStateFacts.getters_return_copies st ∅ ms).
  split; eexists; reflexivity.
Defined.

(** * Further properties *)

(** ** Option resolution *)

(** X1: the merged options have exactly the keys of the defaults, of the
    process-wide overrides and of the call's overrides: the merge drops no
    key and makes none up, so every default is there to be read. *)
Theorem plot_option_logic_keys (G C : gmap string pyval) :
  dom (_plot_option_logic G C)
  = dom _DEFAULT_PLOT_OPTIONS ∪ dom G ∪ dom C.
Proof.
  unfold _plot_option_logic, _plot_option_logic_from, update.
  assert (Hf : "fileopt" ∈ dom _DEFAULT_PLOT_OPTIONS).
  { apply elem_of_dom. by eexists. }
  assert (Hd : dom (C ∪ (G ∪ (_DEFAULT_PLOT_OPTIONS ∪ ∅)))
               = dom _DEFAULT_PLOT_OPTIONS ∪ dom G ∪ dom C).
  { rewrite !dom_union_L, dom_empty_L, (right_id_L ∅ (∪)).
    rewrite (comm_L (∪) (dom C)), (comm_L (∪) (dom G)). done. }
  destruct (_ && _); [|done].
  rewrite dom_insert_L, Hd.
  apply (anti_symm (⊆)).
  - apply union_subseteq. split; [|done].
    apply singleton_subseteq_l.
    by apply elem_of_union_l, elem_of_union_l.
  - apply union_subseteq_r.
Qed.

(** ** Credentials *)

Section CredentialFacts.
Context `{Ext : Externals} `{G : Globals}.

(** X2: the pair [_get_session_username_and_key] returns comes from one
    place: both from the in-process credentials, or both from the
    credentials file; the two are never mixed. *)
Theorem session_key_from_one_source u k :
  _get_session_username_and_key = ret (u, k) →
  (_credentials !! "username" = Some u ∧ _credentials !! "api_key" = Some k)
  ∨ (tools_get_credentials_file !! "username" = Some u
     ∧ tools_get_credentials_file !! "api_key" = Some k).
Proof.
  unfold _get_session_username_and_key.
  destruct (has_key "username" _credentials) eqn:H1;
    destruct (has_key "api_key" _credentials) eqn:H2; simpl.
  1: { apply has_key_true in H1 as [u' Hu], H2 as [k' Hk].
       unfold getitem. rewrite Hu, Hk. intros [= <- <-]. by left. }
  all: destruct (has_key "username" tools_get_credentials_file) eqn:H3;
    destruct (has_key "api_key" tools_get_credentials_file) eqn:H4; simpl;
    try discriminate.
  all: apply has_key_true in H3 as [u' Hu], H4 as [k' Hk];
    unfold getitem; rewrite Hu, Hk; intros [= <- <-]; by right.
Qed.

(** X3: [_validation_key_logic] resolves each of the two separately, the
    in-process value before the file's, and never returns [None] for
    either. *)
Theorem validation_key_per_key u k :
  _validation_key_logic = ret (u, k) →
  Some u = match _credentials !! "username" with
           | Some v => Some v
           | None => tools_get_credentials_file !! "username"
           end
  ∧ Some k = match _credentials !! "api_key" with
             | Some v => Some v
             | None => tools_get_credentials_file !! "api_key"
             end
  ∧ u ≠ PyNone ∧ k ≠ PyNone.
Proof.
  unfold _validation_key_logic.
  assert (Hget : ∀ key,
    (if has_key key _credentials then getitem _credentials key
     else if has_key key tools_get_credentials_file
          then getitem tools_get_credentials_file key
     else ret PyNone)
    = ret (match _credentials !! key with
           | Some v => v
           | None => default PyNone (tools_get_credentials_file !! key)
           end)).
  { intros key. unfold getitem.
    destruct (has_key key _credentials) eqn:H1.
    - apply has_key_true in H1 as [v ->]. done.
    - apply has_key_false in H1. rewrite H1.
      destruct (has_key key tools_get_credentials_file) eqn:H2.
      + apply has_key_true in H2 as [v ->]. done.
      + apply has_key_false in H2. by rewrite H2. }
  rewrite !Hget, !bind_ret.
  destruct (is_none _ || is_none _) eqn:Hn; [discriminate|].
  apply orb_false_iff in Hn as [Hu Hk]. intros [= <- <-].
  destruct (_credentials !! "username") as [cu|],
    (tools_get_credentials_file !! "username") as [fu|],
    (_credentials !! "api_key") as [ck|],
    (tools_get_credentials_file !! "api_key") as [fk|];
    simpl in *; try discriminate; split_and!; try done;
    intros ->; discriminate.
Qed.

(** X4: with a user name and a key both set in the process and neither
    of them [None], the two ways of resolving credentials agree. *)
Theorem credential_resolvers_agree u k :
  _credentials !! "username" = Some u →
  _credentials !! "api_key" = Some k →
  u ≠ PyNone → k ≠ PyNone →
  _get_session_username_and_key = ret (u, k)
  ∧ _validation_key_logic = ret (u, k).
Proof.
  intros Hu Hk Hun Hkn.
  assert (has_key "username" _credentials = true) as H1
    by (apply has_key_true; by eexists).
  assert (has_key "api_key" _credentials = true) as H2
    by (apply has_key_true; by eexists).
  unfold _get_session_username_and_key, _validation_key_logic.
  rewrite H1, H2. unfold getitem. rewrite Hu, Hk. simpl.
  split; [done|]. by destruct u, k.
Qed.

(** X5: when neither the process nor the file knows a user name, both
    resolvers raise [PlotlyLocalCredentialsError]. *)
Theorem no_username_no_credentials :
  _credentials !! "username" = None →
  tools_get_credentials_file !! "username" = None →
  _get_session_username_and_key = raise PlotlyLocalCredentialsError
  ∧ _validation_key_logic = raise PlotlyLocalCredentialsError.
Proof.
  intros Hc Hf.
  apply has_key_false in Hc, Hf.
  unfold _get_session_username_and_key, _validation_key_logic.
  rewrite Hc, Hf. simpl. split; [done|].
  rewrite bind_ret.
  destruct (has_key "api_key" _credentials) eqn:H1;
    [|destruct (has_key "api_key" tools_get_credentials_file) eqn:H2].
  - apply has_key_true in H1 as [v Hv]. unfold getitem. by rewrite Hv.
  - apply has_key_true in H2 as [v Hv]. unfold getitem. by rewrite Hv.
  - done.
Qed.

End CredentialFacts.

(** ** Figure submission, further *)

Lemma posts_app l1 l2 : posts (l1 ++ l2) = posts l1 ++ posts l2.
Proof. unfold posts. apply List.filter_app. Qed.

Lemma posts_none {A} (m : M A) : without is_post m → posts (log m) = [].
Proof.
  unfold without, posts. intros H. induction H as [|ev l Hev _ IH]; [done|].
  simpl. by rewrite Hev.
Qed.

Lemma posts_none_list l :
  Forall (fun ev => is_post ev = false) l → posts l = [].
Proof. intros H. by apply (posts_none (l, Return tt)). Qed.

Section PlotMore.
Context `{Ext : Externals} `{G : Globals}.

(** What [plot] does with what [_send_to_plotly] returned. *)
Lemma plot_tail_no_post opts res :
  without is_post
    (let* err := py_getitem res "error" in
     if is_empty_str err then
       let* auto_open :=
         getitem (_plot_option_logic _plot_options opts) "auto_open" in
       (if truthy auto_open then
          let* url := py_getitem res "url" in _open_url url
        else ret tt) >>
       py_getitem res "url"
     else raise (PlotlyAccountError err)).
Proof. unfold _open_url. quiet. Qed.

Lemma send_to_plotly_posts figure plot_options :
  (length (posts (log (_send_to_plotly figure plot_options))) ≤ 1)%nat.
Proof.
  destruct (send_to_plotly_cases figure plot_options)
    as [(e & ->)|(url & payload & ->)]; [simpl; lia|].
  unfold post.
  destruct (requests_post url payload None) as [r|e].
  - rewrite (bind_Return _ _ r) by done. cbn [log fst].
    rewrite posts_app, (posts_none _ (read_reply_no_post r)). simpl. lia.
  - rewrite (bind_Raise _ _ e) by done. simpl. lia.
Qed.

(** X6: [plot] makes at most one request, whatever it is given and
    however the server answers. *)
Theorem plot_posts_at_most_once fod validate opts :
  (length (posts (log (plot fod validate opts))) ≤ 1)%nat.
Proof.
  destruct (plot_cases fod validate opts)
    as [(l & e & -> & Hl)|(ws & figure & Hws & ->)].
  { cbn [log fst]. rewrite (posts_none_list _ Hl). simpl. lia. }
  rewrite (bind_Return _ _ tt) by done. cbn [log fst].
  rewrite posts_app, (posts_none_list _ Hws). simpl.
  unfold plot_submit.
  pose proof (send_to_plotly_posts figure
                (_plot_option_logic _plot_options opts)) as Hs.
  destruct (outcome (_send_to_plotly figure
              (_plot_option_logic _plot_options opts))) as [res|e] eqn:Ho.
  - rewrite (bind_Return _ _ res) by done. cbn [log fst].
    rewrite posts_app, (posts_none _ (plot_tail_no_post opts res)).
    by rewrite app_nil_r.
  - by rewrite (bind_Raise _ _ e).
Qed.

(** X7: a figure given as a dict without a ['data'] entry never reaches
    the server: once validation is off or has passed, [plot] raises
    [KeyError] for ['data'] and nothing has happened. *)
Theorem plot_dict_without_data (figure : gmap string pyval) validate opts :
  figure !! "data" = None →
  (validate = false
   ∨ tools_validate (PyDict figure) (PyStr "Figure") = None) →
  plot (PyDict figure) validate opts = raise (KeyError "data").
Proof.
  intros Hdata Hval. unfold plot. rewrite bind_ret.
  assert ((if validate then
             match tools_validate (PyDict figure) (PyStr "Figure") with
             | None => ret tt
             | Some err =>
                 raise (PlotlyError (PyStr (invalid_figure_msg +:+ err)))
             end else ret tt) = ret tt) as ->.
  { destruct Hval as [->| ->]; [done | by destruct validate]. }
  rewrite bind_ret. unfold getitem. by rewrite Hdata.
Qed.

(** X8: without usable credentials nothing is sent:
    [_send_to_plotly] raises what resolving them raised, and has made no
    request. *)
Theorem send_to_plotly_needs_credentials figure plot_options e :
  _get_session_username_and_key = raise e →
  without is_post (_send_to_plotly figure plot_options)
  ∧ (outcome (_send_to_plotly figure plot_options) = Raise e
     ∨ (is_Some (plot_options !! "figure")
        ∧ outcome (_send_to_plotly figure plot_options) = Raise TypeError)).
Proof.
  intros Hcred. unfold _send_to_plotly.
  destruct (has_key "figure" plot_options) eqn:Hf.
  - split; [constructor|]. right. split; [|done]. by apply has_key_true.
  - rewrite bind_ret, Hcred. split; [constructor|]. by left.
Qed.

Lemma bind_assoc {A B C} (m : M A) (f : A → M B) (g : B → M C) :
  bind (bind m f) g = bind m (fun a => bind (f a) g).
Proof.
  destruct m as [l [a|e]]; [|done].
  unfold bind. simpl.
  destruct (f a) as [l' [b|e]]; simpl; [|done].
  destruct (g b) as [l'' r]. simpl. by rewrite app_assoc.
Qed.

Lemma look_over_only_warns entries :
  Forall (fun ev => ev = Warn (PyStr too_many_points_msg))
         (log (look_over entries)).
Proof.
  assert (Hbind : ∀ {A B} (m : M A) (k : A → M B),
    Forall (fun ev => ev = Warn (PyStr too_many_points_msg)) (log m) →
    (∀ a, Forall (fun ev => ev = Warn (PyStr too_many_points_msg))
            (log (k a))) →
    Forall (fun ev => ev = Warn (PyStr too_many_points_msg))
           (log (bind m k))).
  { intros A B m k Hm Hk. unfold bind.
    destruct (outcome m); simpl; [|done]. apply Forall_app. by split. }
  assert (Hfor : ∀ {A} (l : list A) (body : A → M unit),
    (∀ x, Forall (fun ev => ev = Warn (PyStr too_many_points_msg))
            (log (body x))) →
    Forall (fun ev => ev = Warn (PyStr too_many_points_msg))
           (log (for_each l body))).
  { intros A l body Hb. induction l as [|x l IH]; simpl; [constructor|].
    apply Hbind; [apply Hb | intros _; apply IH]. }
  unfold look_over. apply Hfor. intros entry.
  apply Hbind; [destruct entry; constructor|]. intros items.
  apply Hfor. intros item. unfold check_points.
  destruct (py_len (snd item)); [|constructor].
  destruct (40000 <? z)%Z; repeat constructor.
Qed.

(** [plot_cases], keeping track of what was logged before the
    submission: size warnings only. *)
Lemma plot_cases_warns fod validate opts :
  (∃ l e, plot fod validate opts = (l, Raise e)
          ∧ Forall (fun ev => ev = Warn (PyStr too_many_points_msg)) l)
  ∨ (∃ ws figure,
       Forall (fun ev => ev = Warn (PyStr too_many_points_msg)) ws
       ∧ plot fod validate opts
         = ((ws, Return tt) >> plot_submit figure opts)).
Proof.
  unfold plot.
  pose proof look_over_only_warns as Hloop.
  destruct fod as [| | | |l|d]; try (left; by eexists [], _);
    rewrite bind_ret;
    (destruct validate;
     [destruct (tools_validate _ _); [left; by eexists [], _|]|];
     rewrite bind_ret);
    (match goal with
     | |- context [getitem ?f "data"] =>
         destruct (getitem_cases f "data") as [(data & _ & ->)| ->]
     end; [rewrite bind_ret | left; by eexists [], _]);
    (assert (Hit : (∃ entries, py_iter data = ret entries)
                   ∨ py_iter data = raise TypeError)
       by (destruct data; simpl; eauto));
    (destruct Hit as [(entries & ->)| ->];
     [rewrite bind_ret | left; by eexists [], _]);
    specialize (Hloop entries);
    (destruct (look_over entries) as [ws [[]|e]];
     [right; by eexists ws, _ | left; by eexists ws, e]).
Qed.

(** The whole log of a call of [plot] that reached the server: the size
    warnings, the request, and what reading and interpreting the reply
    produced. *)
Lemma plot_log_from_post fod validate opts url data hdrs resp :
  In (HttpPost url data hdrs) (log (plot fod validate opts)) →
  requests_post url data hdrs = Return resp →
  ∃ ws,
    Forall (fun ev => ev = Warn (PyStr too_many_points_msg)) ws
    ∧ log (plot fod validate opts)
      = ws ++ HttpPost url data None
           :: log (let* res := read_reply resp in
                   let* err := py_getitem res "error" in
                   if is_empty_str err then
                     let* auto_open :=
                       getitem (_plot_option_logic _plot_options opts)
                               "auto_open" in
                     (if truthy auto_open then
                        let* url := py_getitem res "url" in _open_url url
                      else ret tt) >>
                     py_getitem res "url"
                   else raise (PlotlyAccountError err)).
Proof.
  intros Hin Hpost.
  assert (Hwarn : ∀ l,
    Forall (fun ev => ev = Warn (PyStr too_many_points_msg)) l →
    ¬ In (HttpPost url data hdrs) l).
  { intros l Hl Hi. rewrite Forall_forall in Hl.
    apply list_elem_of_In, Hl in Hi. discriminate. }
  destruct (plot_cases_warns fod validate opts)
    as [(l & e & Hp & Hl)|(ws & figure & Hws & Hp)]; rewrite Hp in Hin |- *.
  { by apply Hwarn in Hin. }
  exists ws. split; [done|].
  rewrite (bind_Return _ _ tt) in Hin |- * by done.
  cbn [log fst] in Hin |- *. f_equal.
  apply in_app_or in Hin as [Hin|Hin]; [by apply Hwarn in Hin|].
  unfold plot_submit in Hin |- *.
  destruct (send_to_plotly_cases figure (_plot_option_logic _plot_options opts))
    as [(e & Hs)|(url' & payload & Hs)]; rewrite Hs in Hin |- *.
  { destruct Hin. }
  rewrite bind_assoc in Hin |- *. unfold post in Hin |- *.
  destruct (requests_post url' payload None) as [r|e] eqn:Hreq.
  - rewrite (bind_Return _ _ r) in Hin |- * by done.
    cbn [log fst app] in Hin |- *.
    destruct Hin as [Heq|Hin].
    + injection Heq as <- <- <-. rewrite Hpost in Hreq. by injection Hreq as <-.
    + exfalso. revert Hin. apply no_post_not_In.
      apply without_bind; [apply read_reply_no_post|].
      intros res. apply plot_tail_no_post.
  - rewrite (bind_Raise _ _ e) in Hin by done.
    cbn [log fst] in Hin. destruct Hin as [Heq|[]].
    injection Heq as <- <- <-. congruence.
Qed.

End PlotMore.

Section PlotReports.
Context `{Ext : Externals} `{G : Globals}.

Lemma when_nonempty_field_without p r k act :
  (∀ v, without p (act v)) → without p (when_nonempty_field r k act).
Proof. intros Hact. unfold when_nonempty_field. quiet. apply Hact. Qed.

Lemma read_reply_no_open_url r : without is_open_url (read_reply r).
Proof.
  unfold read_reply, raise_for_status, loads.
  quiet; apply when_nonempty_field_without; intros; by apply without_tell.
Qed.

Lemma send_to_plotly_no_open_url figure plot_options :
  without is_open_url (_send_to_plotly figure plot_options).
Proof.
  destruct (send_to_plotly_cases figure plot_options)
    as [(e & ->)|(url & payload & ->)]; [constructor|].
  apply without_bind; [|intros r; apply read_reply_no_open_url].
  unfold without, post. simpl. by constructor.
Qed.

Lemma size_warnings_no_open_url l :
  Forall (fun ev => ev = Warn (PyStr too_many_points_msg)) l →
  Forall (fun ev => is_open_url ev = false) l.
Proof. intros H. eapply Forall_impl; [done|]. by intros ev ->. Qed.

(** A call's own value for a key other than [fileopt] is the merged
    one. *)
Lemma plot_option_logic_call_wins (P C : gmap string pyval) k v :
  k ≠ "fileopt" → C !! k = Some v → _plot_option_logic P C !! k = Some v.
Proof.
  intros Hk Hv. unfold _plot_option_logic, _plot_option_logic_from.
  assert (update (update (update ∅ _DEFAULT_PLOT_OPTIONS) P) C !! k = Some v).
  { rewrite merged_lookup. unfold by_precedence. by rewrite Hv. }
  destruct (_ && _); [|done]. by rewrite lookup_insert_ne.
Qed.

(** X9: [plot] opens the browser only when it returns: a call that
    raises, for whatever reason, has opened no url. *)
Theorem plot_raises_without_opening_url fod validate opts e :
  outcome (plot fod validate opts) = Raise e →
  without is_open_url (plot fod validate opts).
Proof.
  destruct (plot_cases_warns fod validate opts)
    as [(l & e' & -> & Hl)|(ws & figure & Hws & ->)].
  { intros _. by apply size_warnings_no_open_url. }
  rewrite (bind_Return _ _ tt) by done. unfold without. cbn [log fst outcome snd].
  intros Hraise. apply Forall_app. split;
    [by apply size_warnings_no_open_url|].
  revert Hraise. unfold plot_submit.
  pose proof (send_to_plotly_no_open_url figure
                (_plot_option_logic _plot_options opts)) as Hsend.
  destruct (_send_to_plotly figure (_plot_option_logic _plot_options opts))
    as [ls [res|e']]; [|by intros _].
  rewrite (bind_Return _ _ res) by done. cbn [log fst outcome snd].
  intros Hraise. apply Forall_app. split; [done|].
  revert Hraise.
  destruct (py_getitem res "error") as [le [err|e']] eqn:Herr.
  2: { intros _. assert (le = []) as ->; [|constructor].
       destruct res; try by injection Herr as <-.
       unfold py_getitem, getitem in Herr. destruct (d !! "error");
         by injection Herr as <-. }
  assert (le = []) as ->.
  { destruct res; try discriminate.
    unfold py_getitem, getitem in Herr. destruct (d !! "error");
      by injection Herr as <-. }
  rewrite (bind_Return _ _ err) by done. cbn [log fst outcome snd app].
  destruct (is_empty_str err); [|intros _; constructor].
  destruct (getitem_cases (_plot_option_logic _plot_options opts) "auto_open")
    as [(ao & _ & ->)| ->]; [rewrite bind_ret | intros _; constructor].
  destruct (truthy ao); [|rewrite bind_ret; intros _; apply without_py_getitem].
  destruct res; try (intros _; constructor).
  unfold py_getitem. destruct (getitem_cases d "url") as [(u & _ & ->)| ->];
    [|intros _; constructor].
  rewrite bind_ret. unfold _open_url. simpl. discriminate.
Qed.

(** X10: with [auto_open] given as false by the call, [plot] never opens
    the browser, however the call ends. *)
Theorem plot_auto_open_false_opens_nothing fod validate opts ao :
  opts !! "auto_open" = Some ao → truthy ao = false →
  without is_open_url (plot fod validate opts).
Proof.
  intros Hao Hfalse.
  apply (plot_option_logic_call_wins _plot_options) in Hao; [|done].
  destruct (plot_cases_warns fod validate opts)
    as [(l & e' & -> & Hl)|(ws & figure & Hws & ->)].
  { by apply size_warnings_no_open_url. }
  apply without_bind; [by apply size_warnings_no_open_url|]. intros _.
  unfold plot_submit.
  apply without_bind; [apply send_to_plotly_no_open_url|]. intros res.
  apply without_bind; [apply without_py_getitem|]. intros err.
  destruct (is_empty_str err); [|constructor].
  unfold getitem at 1. rewrite Hao, bind_ret, Hfalse, bind_ret.
  apply without_py_getitem.
Qed.

Lemma read_reply_dict_log r (d : gmap string pyval) :
  status_ok r →
  json_loads (content r) = Some (PyDict d) →
  read_reply r
  = (log (when_nonempty_field (PyDict d) "error" (fun v => tell (Print v)))
     ++ log (when_nonempty_field (PyDict d) "warning" (fun v => tell (Warn v)))
     ++ log (when_nonempty_field (PyDict d) "message" (fun v => tell (Print v))),
     Return (PyDict d)).
Proof.
  intros Hs Hj. unfold read_reply, raise_for_status.
  assert ((400 <=? status_code r)%Z && (status_code r <? 600)%Z = false) as ->.
  { apply andb_false_iff. unfold status_ok in Hs. lia. }
  rewrite bind_ret. unfold loads. rewrite Hj, bind_ret.
  rewrite !(bind_Return _ _ tt) by (by apply when_nonempty_field_dict).
  cbn [log fst outcome snd ret]. by rewrite !app_nil_r.
Qed.

(** X11: an error the server reports is printed as well as raised: when
    the reply passes the status check and is an object with a non-empty
    [error], that [error] is printed after the request was made. *)
Theorem plot_prints_server_error fod validate opts url data hdrs resp
    (r : gmap string pyval) err :
  In (HttpPost url data hdrs) (log (plot fod validate opts)) →
  requests_post url data hdrs = Return resp →
  status_ok resp →
  json_loads (content resp) = Some (PyDict r) →
  r !! "error" = Some err →
  err ≠ PyStr EmptyString →
  ∃ l1 l2,
    log (plot fod validate opts)
    = l1 ++ HttpPost url data None :: Print err :: l2.
Proof.
  intros Hin Hpost Hstatus Hjson Herr Hne.
  destruct (plot_log_from_post _ _ _ _ _ _ _ Hin Hpost) as (ws & _ & ->).
  exists ws. rewrite (read_reply_dict_log _ _ Hstatus Hjson).
  rewrite (bind_Return _ _ (PyDict r)) by done. cbn [log fst].
  assert (when_nonempty_field (PyDict r) "error" (fun v => tell (Print v))
          = tell (Print err)) as ->.
  { unfold when_nonempty_field. simpl py_in. rewrite bind_ret.
    rewrite (proj2 (has_key_true "error" r)) by by eexists.
    simpl. unfold getitem. rewrite Herr, bind_ret.
    destruct (is_empty_str err) eqn:He; [|done].
    by apply is_empty_str_true in He. }
  simpl. by eexists.
Qed.

(** X12: when [plot] returns the url (the reply passes the status check,
    has an empty [error] and a [url]), the browser is opened on that url
    exactly once if the merged [auto_open] is true, and not at all if it
    is false. *)
Theorem plot_opens_url_once fod validate opts url data hdrs resp
    (r : gmap string pyval) u ao :
  In (HttpPost url data hdrs) (log (plot fod validate opts)) →
  requests_post url data hdrs = Return resp →
  status_ok resp →
  json_loads (content resp) = Some (PyDict r) →
  r !! "error" = Some (PyStr EmptyString) →
  r !! "url" = Some u →
  _plot_option_logic _plot_options opts !! "auto_open" = Some ao →
  List.filter is_open_url (log (plot fod validate opts))
  = if truthy ao then [OpenUrl u] else [].
Proof.
  intros Hin Hpost Hstatus Hjson Herr Hurl Hao.
  destruct (plot_log_from_post _ _ _ _ _ _ _ Hin Hpost) as (ws & Hws & ->).
  assert (Hnone : ∀ l, Forall (fun ev => is_open_url ev = false) l →
                       List.filter is_open_url l = []).
  { intros l Hl. induction Hl as [|ev l Hev _ IH]; [done|].
    simpl. by rewrite Hev. }
  rewrite List.filter_app, (Hnone ws) by by apply size_warnings_no_open_url.
  simpl.
  rewrite (bind_Return _ _ (PyDict r)) by by apply read_reply_dict.
  cbn [log fst]. rewrite List.filter_app.
  rewrite (Hnone _ (read_reply_no_open_url resp)). simpl.
  unfold getitem at 1. rewrite Herr, bind_ret. simpl.
  unfold getitem at 1. rewrite Hao, bind_ret.
  unfold getitem. rewrite Hurl.
  by destruct (truthy ao).
Qed.

End PlotReports.

(** X13: a [validate] entry among the process-wide options changes
    nothing in [plot]: whether the figure is validated is decided by the
    call's own [validate] argument alone, and the entry is not sent. *)
Theorem plot_ignores_validate_option `{Ext : Externals}
    (creds P : gmap string pyval) v fod validate opts :
  @plot Ext {| _credentials := creds;
               _plot_options := <["validate" := v]> P |} fod validate opts
  = @plot Ext {| _credentials := creds; _plot_options := P |}
      fod validate opts.
Proof.
  assert (Hk : ∀ k, k ≠ "validate" →
            _plot_option_logic (<["validate" := v]> P) opts !! k
            = _plot_option_logic P opts !! k).
  { intros k Hne. unfold _plot_option_logic, _plot_option_logic_from.
    assert (has_key "fileopt" (<["validate" := v]> P) = has_key "fileopt" P)
      as ->.
    { unfold has_key. by rewrite lookup_insert_ne. }
    assert (update (update (update ∅ _DEFAULT_PLOT_OPTIONS)
                      (<["validate" := v]> P)) opts !! k
            = update (update (update ∅ _DEFAULT_PLOT_OPTIONS) P) opts !! k)
      as Hm.
    { rewrite !merged_lookup. unfold by_precedence.
      by rewrite lookup_insert_ne. }
    destruct (_ && _); [|done].
    destruct (decide (k = "fileopt")) as [->|Hf].
    - by rewrite !lookup_insert_eq.
    - by rewrite !lookup_insert_ne. }
  unfold plot, plot_submit, _send_to_plotly, _get_session_username_and_key,
    getitem, has_key.
  cbn [_credentials _plot_options].
  by rewrite (Hk "figure"), (Hk "filename"), (Hk "fileopt"),
    (Hk "world_readable"), (Hk "auto_open").
Qed.

(** ** Streams, further *)

Section StreamMore.
Context `{Ext : Externals} `{CR : ChunkedRequests}.

Lemma try_except_reported msg (m : M unit) :
  try_except m (on_AttributeError msg) = reported msg m.
Proof.
  unfold try_except, reported. destruct m as [l [[]|e]]; [done|].
  destruct e; simpl; try done. by rewrite app_nil_r.
Qed.

Lemma write_jdata_passes trace layout validate :
  validate = false ∨ passes_validation trace layout →
  write_jdata trace layout validate
  = ret (json_dumps (PyDict (sent_object trace layout)) +:+ newline).
Proof.
  intros Hv. unfold write_jdata, sent_object. fold (stream_object_of trace).
  destruct (stream_object_has_type trace) as [ty Hty].
  unfold getitem. rewrite Hty, bind_ret.
  destruct validate; [|by rewrite bind_ret].
  destruct Hv as [|(ty' & Hty' & H1 & H2 & H3)]; [done|].
  assert (ty' = ty) as -> by congruence.
  rewrite H1, H2. unfold revalidate. rewrite !bind_ret.
  destruct layout as [lay|]; [rewrite H3|]; by rewrite bind_ret.
Qed.

(** X14: what [write] sends never names a type.  On an opened stream,
    with validation off or passed, the socket is given exactly one line:
    the JSON of the trace without its ['type'] entry (with the layout
    under ['layout'] when one is given) followed by a newline; and [write]
    ends as the socket's write did, except that an [AttributeError] from
    it is reported as the stream not being open. *)
Theorem write_sends_untyped_line self c trace layout validate reconnect_on :
  _stream self = Some c →
  validate = false ∨ passes_validation trace layout →
  sent_object trace layout !! "type" = None
  ∧ (∀ lay, layout = Some lay →
       sent_object trace layout !! "layout" = Some lay)
  ∧ (∀ k, k ≠ "type" → layout = None ∨ k ≠ "layout" →
       sent_object trace layout !! k = trace !! k)
  ∧ Stream_write self trace layout validate reconnect_on
    = (set__stream self
         (fst (chunked_write c
                 (json_dumps (PyDict (sent_object trace layout)) +:+ newline)
                 reconnect_on)),
       reported write_not_open_msg
         (snd (chunked_write c
                 (json_dumps (PyDict (sent_object trace layout)) +:+ newline)
                 reconnect_on))).
Proof.
  intros Hs Hv. split_and!.
  - unfold sent_object. destruct layout as [lay|].
    + rewrite lookup_update, lookup_insert_ne by done.
      rewrite lookup_empty. apply lookup_delete_eq.
    + apply lookup_delete_eq.
  - intros lay ->. unfold sent_object.
    by rewrite lookup_update, lookup_insert_eq.
  - intros k Hk Hl.
    assert (Hobj : delete "type" (stream_object_of trace) !! k = trace !! k).
    { rewrite lookup_delete_ne by done. unfold stream_object_of.
      assert (update ∅ trace !! k = trace !! k) as Hu.
      { rewrite lookup_update, lookup_empty. by destruct (trace !! k). }
      destruct (has_key "type" (update ∅ trace)); [done|].
      by rewrite lookup_insert_ne. }
    unfold sent_object. destruct layout as [lay|]; [|done].
    destruct Hl as [|Hl]; [done|].
    rewrite lookup_update, lookup_insert_ne by done.
    by rewrite lookup_empty.
  - unfold Stream_write. rewrite (write_jdata_passes _ _ _ Hv), Hs.
    simpl. destruct (chunked_write c _ reconnect_on) as [c' m].
    rewrite try_except_reported. simpl. f_equal.
    unfold bind. simpl. by destruct (reported write_not_open_msg m).
Qed.

(** [close] hands the call to the socket and ends as the socket's
    close did, except that an [AttributeError] from it is reported as the
    stream not having been opened; the socket stays attached. *)
Lemma close_keeps_socket self c :
  _stream self = Some c →
  Stream_close self
  = (set__stream self (fst (chunked_close c)),
     reported close_not_open_msg (snd (chunked_close c))).
Proof.
  intros Hs. unfold Stream_close. rewrite Hs.
  destruct (chunked_close c) as [c' m]. by rewrite try_except_reported.
Qed.

Lemma do_call_keeps_socket self call :
  is_Some (_stream self) → is_Some (_stream (fst (do_call self call))).
Proof.
  intros [c Hc].
  destruct call as [|trace layout validate reconnect_on|]; simpl.
  - unfold Stream_open.
    destruct (getitem tools_get_config_file "plotly_streaming_domain")
      as [l [url|e]]; [|by eexists].
    destruct (chunked_Stream _ _ _); by eexists.
  - unfold Stream_write.
    destruct (write_jdata trace layout validate) as [l [jdata|e]];
      [|by eexists].
    rewrite Hc. destruct (chunked_write c jdata reconnect_on). by eexists.
  - unfold Stream_close. rewrite Hc.
    destruct (chunked_close c). by eexists.
Qed.

(** On an opened stream, with validation off or passed, [write] hands
    the line to the socket and ends as the socket's write did, except that
    an [AttributeError] from it is reported as the stream not being
    open. *)
Lemma write_goes_to_socket self c trace layout validate reconnect_on :
  _stream self = Some c →
  validate = false ∨ passes_validation trace layout →
  Stream_write self trace layout validate reconnect_on
  = (set__stream self
       (fst (chunked_write c
               (json_dumps (PyDict (sent_object trace layout)) +:+ newline)
               reconnect_on)),
     reported write_not_open_msg
       (snd (chunked_write c
               (json_dumps (PyDict (sent_object trace layout)) +:+ newline)
               reconnect_on))).
Proof.
  intros Hs Hv.
  unfold Stream_write. rewrite (write_jdata_passes _ _ _ Hv), Hs.
  simpl. destruct (chunked_write c _ reconnect_on) as [c' m].
  rewrite try_except_reported. simpl. f_equal.
  unfold bind. simpl. by destruct (reported write_not_open_msg m).
Qed.

(** X15: there is no way back to the unopened state: once a handle has a
    socket it has one after any further calls, [close] and failed [open]s
    included.  A later [close], and a later [write] whose validation is
    off or passes, is handed to that socket and ends as the socket's call
    did, an [AttributeError] raised by the socket being reported as the
    stream not being open. *)
Theorem opened_stream_stays_opened self cs :
  is_Some (_stream self) →
  ∃ c,
    _stream (after_calls self cs) = Some c
    ∧ Stream_close (after_calls self cs)
      = (set__stream (after_calls self cs) (fst (chunked_close c)),
         reported close_not_open_msg (snd (chunked_close c)))
    ∧ (∀ trace layout validate reconnect_on,
         validate = false ∨ passes_validation trace layout →
         Stream_write (after_calls self cs) trace layout validate
           reconnect_on
         = (set__stream (after_calls self cs)
              (fst (chunked_write c
                      (json_dumps (PyDict (sent_object trace layout))
                       +:+ newline)
                      reconnect_on)),
            reported write_not_open_msg
              (snd (chunked_write c
                      (json_dumps (PyDict (sent_object trace layout))
                       +:+ newline)
                      reconnect_on)))).
Proof.
  intros Hs.
  assert (Hafter : is_Some (_stream (after_calls self cs))).
  { unfold after_calls. revert self Hs.
    induction cs as [|c cs IH]; intros self Hs; [done|]. simpl.
    apply IH. by apply do_call_keeps_socket. }
  destruct Hafter as [c Hc]. exists c. split_and!.
  - done.
  - by apply close_keeps_socket.
  - intros trace layout validate reconnect_on Hv.
    by apply write_goes_to_socket.
Qed.

(** The stream-not-open error does not tell that [open] was never called:
    on an opened handle whose socket raises [AttributeError] itself,
    [close] and [write] raise that same error. *)
Lemma opened_stream_not_open_error :
  let sample := Sample.externals (Sample.reply 200 Sample.ok_text) in
  let self := @Build_Stream Cases.faulty_socket "token" false (Some tt) in
  is_Some (_stream self)
  ∧ snd (@Stream_close Cases.faulty_socket self)
    = raise (PlotlyError (PyStr close_not_open_msg))
  ∧ snd (@Stream_write sample Cases.faulty_socket self Sample.scatter_trace
           None false [PyInt 200; PyStr EmptyString; PyInt 408])
    = raise (PlotlyError (PyStr write_not_open_msg)).
Proof.
  intros sample self. split_and!.
  - by eexists.
  - reflexivity.
  - vm_compute. reflexivity.
Qed.

(** [open] emits nothing itself.  It either attaches a new socket,
    made for the configured streaming domain on port 80 with the stream
    token in a header (whether or not a socket was attached already), or
    raises and leaves the handle exactly as it was. *)
Lemma open_attaches_or_leaves self :
  log (snd (Stream_open self)) = []
  ∧ ((∃ url c,
        tools_get_config_file !! "plotly_streaming_domain" = Some url
        ∧ chunked_Stream url 80
            (<["Host" := url]>
            (<["plotly-streamtoken" := PyStr (stream_id self)]> ∅))
          = Return c
        ∧ Stream_open self = (set__stream self c, ret tt))
     ∨ (∃ e, Stream_open self = (self, raise e))).
Proof.
  unfold Stream_open.
  destruct (getitem_cases tools_get_config_file "plotly_streaming_domain")
    as [(url & Hurl & ->)| ->]; [|split; [done | right; by eexists]].
  simpl.
  destruct (chunked_Stream url 80 _) as [c|e] eqn:Hc.
  - split; [done|]. left. by exists url, c.
  - split; [done|]. right. by eexists.
Qed.

End StreamMore.

(** ** Static images, further *)

Section ImageMore.
Context `{Ext : Externals} `{G : Globals}.

Lemma image_get_rejects_format fod format width height :
  in_strings format ["png"; "svg"; "jpeg"; "pdf"] = false →
  image_get fod format width height
  = raise (PlotlyError (PyStr invalid_format_msg)).
Proof. intros Hf. unfold image_get. by rewrite Hf. Qed.

(** X16: the format is checked first: a format other than png, svg, jpeg
    and pdf makes [image.get] raise [PlotlyError] at once, whatever the
    figure is (an argument that is neither a dict nor a list included)
    and whether or not credentials are known; nothing is sent. *)
Theorem image_get_invalid_format fod format width height :
  in_strings format ["png"; "svg"; "jpeg"; "pdf"] = false →
  image_get fod format width height
  = raise (PlotlyError (PyStr invalid_format_msg))
  ∧ log (image_get fod format width height) = [].
Proof.
  intros Hf. by rewrite (image_get_rejects_format _ _ _ _ Hf).
Qed.

(** [image.get] fails before anything is sent, or makes one request and
    goes on with the reply. *)
Lemma image_get_cases fod format width height :
  (∃ e, image_get fod format width height = raise e)
  ∨ (∃ url data hdrs,
       image_get fod format width height
       = (let* res := post url data (Some hdrs) in image_reply res)).
Proof.
  unfold image_get.
  destruct (negb (in_strings format _)); [left; by eexists|].
  rewrite bind_ret.
  assert (Hkey : (∃ u k, _validation_key_logic = ret (u, k))
                 ∨ (∃ e, _validation_key_logic = raise e)).
  { unfold _validation_key_logic.
    assert (Hget : ∀ key,
      ∃ v, (if has_key key _credentials then getitem _credentials key
            else if has_key key tools_get_credentials_file
                 then getitem tools_get_credentials_file key
            else ret PyNone) = ret v).
    { intros key. unfold getitem.
      destruct (has_key key _credentials) eqn:H1.
      - apply has_key_true in H1 as [v ->]. by eexists.
      - destruct (has_key key tools_get_credentials_file) eqn:H2.
        + apply has_key_true in H2 as [v ->]. by eexists.
        + by eexists. }
    destruct (Hget "username") as [u ->], (Hget "api_key") as [k ->].
    rewrite !bind_ret.
    destruct (_ || _); [right; by eexists | left; by exists u, k]. }
  destruct Hkey as [(u & k & ->)|(e & ->)];
    [rewrite bind_ret | left; by eexists].
  destruct fod as [| | | |l|d]; try (left; by eexists); rewrite bind_ret.
  all: destruct (getitem_cases tools_get_config_file "plotly_domain")
    as [(dom & _ & ->)| ->]; [rewrite bind_ret | left; by eexists].
  all: destruct (py_add_str_cases dom "/apigenimage/") as [(url & ->)| ->];
    [rewrite bind_ret | left; by eexists].
  all: right; by eexists _, _, _.
Qed.

Lemma image_reply_no_post res : without is_post (image_reply res).
Proof.
  unfold image_reply, content_type_has_json, loads.
  destruct (status_code res =? 200)%Z.
  - quiet.
  - apply without_bind; [|intros; quiet].
    apply without_try_except; [quiet|].
    intros e k [= <-]. constructor.
Qed.

(** How [image.get] ends is decided by the reply to its request. *)
Lemma image_get_from_post fod format width height url data hdrs res :
  In (HttpPost url data hdrs) (log (image_get fod format width height)) →
  requests_post url data hdrs = Return res →
  image_get fod format width height
  = (HttpPost url data hdrs :: log (image_reply res),
     outcome (image_reply res)).
Proof.
  intros Hin Hpost.
  destruct (image_get_cases fod format width height)
    as [(e & He)|(url' & data' & hdrs' & He)]; rewrite He in Hin |- *.
  { destruct Hin. }
  unfold post in Hin |- *.
  destruct (requests_post url' data' (Some hdrs')) as [r|e] eqn:Hreq.
  - rewrite (bind_Return _ _ r) in Hin |- * by done.
    cbn [log fst app] in Hin |- *. destruct Hin as [Heq|Hin].
    + injection Heq as <- <- <-. rewrite Hpost in Hreq.
      by injection Hreq as <-.
    + exfalso. revert Hin. apply no_post_not_In, image_reply_no_post.
  - rewrite (bind_Raise _ _ e) in Hin by done.
    cbn [log fst] in Hin. destruct Hin as [Heq|[]].
    injection Heq as <- <- <-. congruence.
Qed.

(** X17: when the server answers the image request with status 200 and
    one of the four image content types, [image.get] returns the body of
    the reply as it is. *)
Theorem image_get_returns_image fod format width height url data hdrs res ct :
  In (HttpPost url data hdrs) (log (image_get fod format width height)) →
  requests_post url data hdrs = Return res →
  status_code res = 200%Z →
  headers res !! "content-type" = Some (PyStr ct) →
  In ct ["image/png"; "image/jpeg"; "application/pdf"; "image/svg+xml"] →
  outcome (image_get fod format width height) = Return (PyStr (content res)).
Proof.
  intros Hin Hpost Hst Hct Hty.
  rewrite (image_get_from_post _ _ _ _ _ _ _ _ Hin Hpost).
  cbn [outcome snd]. unfold image_reply. rewrite Hst. simpl Z.eqb. cbv iota.
  rewrite (proj2 (has_key_true "content-type" _)) by by eexists.
  rewrite Hct. simpl default.
  assert (in_strings (PyStr ct)
            ["image/png"; "image/jpeg"; "application/pdf"; "image/svg+xml"]
          = true) as ->; [|done].
  simpl in Hty |- *.
  destruct Hty as [<-|[<-|[<-|[<-|[]]]]]; by rewrite ?String.eqb_refl, ?orb_true_r.
Qed.

(** X18: a reply with status 200 and no content type is not an error for
    [image.get]: it returns [None]. *)
Theorem image_get_untyped_reply_returns_None
    fod format width height url data hdrs res :
  In (HttpPost url data hdrs) (log (image_get fod format width height)) →
  requests_post url data hdrs = Return res →
  status_code res = 200%Z →
  headers res !! "content-type" = None →
  image_get fod format width height
  = ([HttpPost url data hdrs], Return PyNone).
Proof.
  intros Hin Hpost Hst Hct.
  rewrite (image_get_from_post _ _ _ _ _ _ _ _ Hin Hpost).
  unfold image_reply, content_type_has_json. rewrite Hst. simpl Z.eqb.
  cbv iota. by rewrite (proj2 (has_key_false "content-type" _)).
Qed.


(** X20: [save_as] with a file name without extension and no format
    always fails: ['.png'] is added to the name, but the format handed to
    [image.get] is still the one given, which is not a valid format;
    [PlotlyError] is raised and nothing is sent or written. *)
Theorem save_as_bare_name_fails splitext fod filename base format
    width height :
  splitext filename = (base, EmptyString) →
  truthy format = false →
  save_as splitext fod filename format width height
  = raise (PlotlyError (PyStr invalid_format_msg)).
Proof.
  intros Hs Hf. unfold save_as. rewrite Hs, Hf. simpl. rewrite bind_ret.
  rewrite image_get_rejects_format; [done|].
  by destruct format as [| | |s| |]; try done; destruct s.
Qed.

(** X21: with a format given, [save_as] adds a dot and the format to the
    file name whether or not the name already has an extension: the file
    it writes is always [filename.format]. *)
Theorem save_as_appends_format splitext fod filename f width height
    name img :
  f ≠ EmptyString →
  outcome (save_as splitext fod filename (PyStr f) width height)
  = Return (name, img) →
  name = filename +:+ "." +:+ f
  ∧ outcome (image_get fod (PyStr f) width height) = Return img.
Proof.
  intros Hf. unfold save_as.
  destruct (splitext filename) as [base ext].
  assert (truthy (PyStr f) = true) as Ht.
  { simpl. destruct f; [done | reflexivity]. }
  rewrite Ht. simpl negb. rewrite !andb_false_r.
  match goal with
  | |- context [if ?c then _ else _] =>
      replace (if c
               then let* suffix := dot_format (PyStr f) in
                    ret (filename +:+ suffix, PyStr f)
               else let* suffix := dot_format (PyStr f) in
                    ret (filename +:+ suffix, PyStr f))
        with (ret (filename +:+ "." +:+ f, PyStr f) : M (string * pyval))
        by (by destruct c)
  end.
  rewrite bind_ret.
  destruct (image_get fod (PyStr f) width height) as [l [img'|e]];
    [|discriminate].
  rewrite (bind_Return _ _ img') by done. cbn [outcome snd].
  destruct img'; try discriminate. by intros [= <- <-].
Qed.

End ImageMore.

(** ** Grids, further *)

Lemma outcome_bind_inv {A B} (m : M A) (k : A → M B) b :
  outcome (bind m k) = Return b →
  ∃ a, outcome m = Return a ∧ outcome (k a) = Return b.
Proof.
  unfold bind. destruct (outcome m) as [a|e]; [|discriminate].
  intros H. by exists a.
Qed.

Lemma lookup_map {A B} (f : A → B) (l : list A) i :
  map f l !! i = f <$> (l !! i).
Proof.
  revert i. induction l as [|x l IH]; intros [|i]; simpl; try done.
Qed.

Lemma length_column_of_rows j rows :
  Forall (fun row : list pyval => j < length row) rows →
  length (column_of_rows j rows) = length rows.
Proof.
  unfold column_of_rows.
  induction 1 as [|row rows Hrow _ IH]; [done|]. simpl.
  destruct (lookup_lt_is_Some_2 row j Hrow) as [x Hx]. rewrite Hx. simpl.
  by f_equal.
Qed.

Lemma min_of_equal_lengths n (rs : list (list pyval)) :
  Forall (fun row => length row = n) rs →
  fold_right Nat.min n (map (@length pyval) rs) = n.
Proof.
  induction 1 as [|row rs Hrow _ IH]; [done|]. simpl. rewrite IH, Hrow. lia.
Qed.

Lemma length_le_longest store columns col :
  In col columns →
  (length (column_data store col) ≤ longest_column store columns)%nat.
Proof.
  unfold longest_column. induction columns as [|c cs IH]; [done|].
  simpl. intros [->|Hin]; [lia|]. specialize (IH Hin). lia.
Qed.

Lemma changed_elsewhere ps store l :
  ¬ In l (map fst ps) → changed ps store !! l = store !! l.
Proof.
  unfold changed. revert store.
  induction ps as [|[l0 f0] ps IH]; intros store Hl; [done|]. simpl in *.
  rewrite IH by tauto. apply lookup_alter_ne. tauto.
Qed.

Lemma changed_lookup ps store j l f :
  NoDup (map fst ps) → ps !! j = Some (l, f) →
  changed ps store !! l = f <$> (store !! l).
Proof.
  unfold changed. revert store j.
  induction ps as [|[l0 f0] ps IH]; intros store j Hnd Hj; [done|].
  simpl in Hnd. apply NoDup_cons in Hnd as [Hl0 Hnd].
  destruct j as [|j]; simpl in *.
  - injection Hj as -> ->.
    fold (changed ps (alter f l store)).
    rewrite changed_elsewhere by (by rewrite <- list_elem_of_In).
    apply lookup_alter_eq.
  - rewrite (IH _ j Hnd Hj).
    rewrite lookup_alter_ne; [done|]. intros ->. apply Hl0.
    apply list_elem_of_In, in_map_iff. exists (l, f). split; [done|].
    apply list_elem_of_In. by eapply list_elem_of_lookup_2.
Qed.

(** The padding loop, as a run of changes. *)
Lemma padding_changes longest columns store :
  fold_left (fun store column =>
               let n_empty_rows :=
                 longest - length (column_data store column) in
               let empty_string_rows :=
                 repeat (PyStr EmptyString) n_empty_rows in
               extend_data column empty_string_rows store)
            columns store
  = changed
      (map (fun c => (Column_data c,
                      fun d => d ++ repeat (PyStr EmptyString)
                                           (longest - length d)))
           columns) store.
Proof.
  unfold changed. revert store.
  induction columns as [|c cs IH]; intros store; [done|]. simpl.
  rewrite IH. f_equal. unfold extend_data, column_data.
  apply alter_ext. intros d Hd. by rewrite Hd.
Qed.

(** The extension loop, as a run of changes. *)
Lemma extension_changes (pairs : list (Column * list pyval)) store :
  fold_left (fun store '(local_column, column_extension) =>
               extend_data local_column column_extension store)
            pairs store
  = changed
      (map (fun p => (Column_data (fst p), fun d => d ++ snd p)) pairs)
      store.
Proof.
  unfold changed. revert store.
  induction pairs as [|[c ext] ps IH]; intros store; [done|]. simpl.
  by rewrite IH.
Qed.

Lemma zip_data_refs (columns : list Column) (exts : list (list pyval)) :
  length exts = length columns →
  map fst (map (fun p => (Column_data (fst p),
                          fun d : list pyval => d ++ snd p))
               (zip columns exts))
  = map Column_data columns.
Proof.
  revert exts. induction columns as [|c cs IH]; intros [|e es] Hlen;
    try done. simpl in *. f_equal. apply IH. lia.
Qed.

(** What the in-place update leaves in the store when every column has a
    list of its own and the rows have the right length. *)
Lemma extend_columns_separate columns rows store j col :
  separate_columns store columns →
  Forall (fun row => length row = length columns) rows →
  columns !! j = Some col →
  column_data (extend_columns columns rows store) col
  = column_data store col
    ++ repeat (PyStr EmptyString)
         (longest_column store columns - length (column_data store col))
    ++ column_of_rows j rows.
Proof.
  intros [Hnd Hin] Hrows Hj. unfold extend_columns.
  fold (longest_column store columns).
  rewrite padding_changes, extension_changes.
  set (pad := fun d : list pyval =>
         d ++ repeat (PyStr EmptyString)
                (longest_column store columns - length d)).
  set (ps1 := map (fun c => (Column_data c, pad)) columns).
  assert (Hfst1 : map fst ps1 = map Column_data columns).
  { unfold ps1. rewrite map_map. done. }
  assert (Hcol : is_Some (store !! Column_data col)).
  { rewrite Forall_forall in Hin. apply Hin.
    by eapply list_elem_of_lookup_2. }
  destruct Hcol as [d Hd].
  assert (H1 : changed ps1 store !! Column_data col = Some (pad d)).
  { rewrite (changed_lookup ps1 store j (Column_data col) pad).
    - by rewrite Hd.
    - by rewrite Hfst1.
    - unfold ps1. by rewrite lookup_map, Hj. }
  assert (Hdata : column_data store col = d).
  { unfold column_data. by rewrite Hd. }
  rewrite Hdata. unfold column_data at 1.
  destruct rows as [|r rs].
  - cbn [zip_star]. rewrite zip_with_nil_r. cbn [map].
    unfold changed at 1. cbn [fold_left]. rewrite H1. simpl.
    unfold pad, column_of_rows. simpl. by rewrite app_nil_r.
  - inversion Hrows as [|? ? Hr Hrs]; subst.
    assert (Hz : zip_star (r :: rs)
                 = map (fun i => column_of_rows i (r :: rs))
                       (seq 0 (length columns))).
    { unfold zip_star. by rewrite Hr, (min_of_equal_lengths _ _ Hrs). }
    rewrite Hz.
    set (exts := map _ (seq 0 (length columns))).
    assert (Hel : length exts = length columns).
    { unfold exts. by rewrite length_map, length_seq. }
    assert (Hjlt : j < length columns) by (by eapply lookup_lt_Some).
    rewrite (changed_lookup _ _ j (Column_data col)
               (fun d => d ++ column_of_rows j (r :: rs))).
    + rewrite H1. simpl. unfold pad. by rewrite <- app_assoc.
    + by rewrite zip_data_refs.
    + rewrite lookup_map, lookup_zip_with, Hj. simpl.
      unfold exts. rewrite lookup_map, lookup_seq_lt by done. done.
Qed.

Lemma extend_columns_elsewhere columns rows store l :
  Forall (fun row => length row = length columns) rows →
  ¬ In l (map Column_data columns) →
  extend_columns columns rows store !! l = store !! l.
Proof.
  intros Hrows Hl. unfold extend_columns.
  rewrite padding_changes, extension_changes.
  rewrite changed_elsewhere.
  - rewrite changed_elsewhere; [done|]. by rewrite map_map.
  - destruct rows as [|r rs].
    + cbn [zip_star]. rewrite zip_with_nil_r. simpl. tauto.
    + inversion Hrows as [|? ? Hr Hrs]; subst.
      rewrite zip_data_refs; [done|].
      unfold zip_star. rewrite Hr, (min_of_equal_lengths _ _ Hrs).
      by rewrite length_map, length_seq.
Qed.

Section GridMore.
Context `{Ext : Externals} `{G : Globals}.

(** X22: a grid must be named in exactly one way.
    [_parse_grid_id_args] raises [InputError] when none or more than one
    of the grid's id, [grid_url] and [grid_id] is given, and whenever it
    returns, exactly one was. *)
Theorem parse_grid_id_args_exactly_one grid grid_url grid_id :
  (grid_names_given grid grid_url grid_id ≠ 1 →
   ∃ msg, _parse_grid_id_args grid grid_url grid_id
          = raise (InputError msg))
  ∧ (∀ i, outcome (_parse_grid_id_args grid grid_url grid_id) = Return i →
       grid_names_given grid grid_url grid_id = 1
       ∧ (grid_url = None →
          i = match grid with
              | Some g => match Grid_id g with
                          | Some x => Some x
                          | None => grid_id
                          end
              | None => grid_id
              end)).
Proof.
  unfold grid_names_given, _parse_grid_id_args.
  destruct (match grid with Some g => Grid_id g | None => None end)
    as [i0|] eqn:Hg, grid_url as [u|], grid_id as [i1|]; simpl;
    (split; [intros Hn; try done; by eexists|]); intros i Hi;
    try discriminate.
  - split; [done|]. intros _. injection Hi as <-.
    destruct grid as [g|]; [|done]. simpl in Hg. by rewrite Hg.
  - split; [done|]. discriminate.
  - split; [done|]. intros _. injection Hi as <-.
    destruct grid as [g|]; [|done]. simpl in Hg. by rewrite Hg.
Qed.

Lemma row_check_returned rows n i l :
  for_each (enumerate_from i rows) (fun '(row_i, row) =>
    if negb (Nat.eqb (length row) n) then
      raise (InputError (row_length_msg row_i (length row) n))
    else ret tt)
  = (l, Return tt) →
  Forall (fun row : list pyval => length row = n) rows.
Proof.
  revert i l. induction rows as [|row rows IH]; intros i l; [constructor|].
  simpl. destruct (Nat.eqb (length row) n) eqn:Hlen; simpl; [|discriminate].
  rewrite bind_ret. intros H. constructor; [by apply Nat.eqb_eq|].
  by eapply IH.
Qed.

(** X23: what a successful [append_rows] leaves of a local grid that has
    columns, each with a data list of its own.  Every row had as many
    entries as the grid has columns; each column's list is its old
    content, padded with empty strings to the length of the longest
    column, followed by that column's entry of every row, so that all
    columns end up equally long; and no other list is touched. *)
Theorem append_rows_extends_every_column rows g grid_url grid_id
    store store' :
  Grid_columns g ≠ [] →
  separate_columns store (Grid_columns g) →
  outcome (append_rows rows (Some g) grid_url grid_id store)
  = Return store' →
  Forall (fun row => length row = length (Grid_columns g)) rows
  ∧ (∀ j col, Grid_columns g !! j = Some col →
       column_data store' col
       = column_data store col
         ++ repeat (PyStr EmptyString)
              (longest_column store (Grid_columns g)
               - length (column_data store col))
         ++ column_of_rows j rows
       ∧ length (column_data store' col)
         = longest_column store (Grid_columns g) + length rows)
  ∧ (∀ l, ¬ In l (map Column_data (Grid_columns g)) →
       store' !! l = store !! l).
Proof.
  intros Hcols Hsep Hret. unfold append_rows in Hret.
  assert (grid_truthy (Some g) = true) as Ht.
  { simpl. by destruct (Grid_columns g). }
  rewrite Ht in Hret.
  apply outcome_bind_inv in Hret as (gid & _ & Hret).
  apply outcome_bind_inv in Hret as ([] & Hcheck & Hret).
  apply outcome_bind_inv in Hret as (hdrs & _ & Hret).
  apply outcome_bind_inv in Hret as (res & _ & Hret).
  apply outcome_bind_inv in Hret as (resp & _ & Hret).
  injection Hret as <-.
  assert (Hrows : Forall (fun row => length row = length (Grid_columns g))
                    rows).
  { destruct (for_each _ _) as [l o] eqn:Hfor in Hcheck.
    simpl in Hcheck. subst o. by eapply row_check_returned. }
  split_and!; [done| |].
  - intros j col Hj.
    rewrite (extend_columns_separate _ _ _ j col Hsep Hrows Hj).
    split; [done|].
    rewrite !length_app, repeat_length, length_column_of_rows.
    + assert (length (column_data store col)
              ≤ longest_column store (Grid_columns g))%nat.
      { apply length_le_longest. apply list_elem_of_In.
        by eapply list_elem_of_lookup_2. }
      lia.
    + eapply Forall_impl; [exact Hrows|]. intros row Hrow.
      rewrite Hrow. by eapply lookup_lt_Some.
  - intros l Hl. by apply extend_columns_elsewhere.
Qed.

End GridMore.

(** ** Module-level state, further *)

Module ModuleStateMore.
Import ModuleState.

Lemma deref_alter st f l :
  deref (set_heap st (alter f l (heap st))) l
  = match heap st !! l with
    | Some d => f d
    | None => ∅
    end.
Proof.
  unfold deref. simpl. rewrite lookup_alter_eq.
  by destruct (heap st !! l).
Qed.

Lemma deref_copy st l :
  deref (snd (copy_copy l st)) (fst (copy_copy l st)) = deref st l.
Proof. unfold copy_copy, deref at 1. by rewrite ModuleStateFacts.alloc_holds. Qed.

(** X24: after [sign_in(username, api_key)], [get_credentials] returns a
    mapping holding that user name and key (and whatever else the
    in-process credentials held); the credentials file plays no part. *)
Theorem sign_in_then_get_credentials st username api_key credentials_file :
  bound st →
  let st1 := sign_in username api_key st in
  deref (snd (get_credentials credentials_file st1))
        (fst (get_credentials credentials_file st1))
  = <["api_key" := api_key]>
      (<["username" := username]> (deref st (_credentials st))).
Proof.
  intros [[c Hc] _] st1.
  assert (Hd : deref st1 (_credentials st1)
               = <["api_key" := api_key]> (<["username" := username]> c)).
  { unfold st1, sign_in. cbn [_credentials set_heap].
    by rewrite deref_alter, Hc. }
  unfold get_credentials. rewrite Hd.
  rewrite (bool_decide_eq_true_2 (is_Some (_ !! "username"))).
  2: { rewrite lookup_insert_ne, lookup_insert_eq by done. by eexists. }
  rewrite (bool_decide_eq_true_2 (is_Some (_ !! "api_key"))).
  2: { rewrite lookup_insert_eq. by eexists. }
  simpl andb. cbv iota. rewrite deref_copy, Hd.
  unfold deref. by rewrite Hc.
Qed.

(** X25: as long as the process lacks a user name or a key,
    [get_credentials] returns what the credentials file holds; a user
    name set alone in the process is not used. *)
Theorem get_credentials_falls_back_to_file st credentials_file :
  deref st (_credentials st) !! "username" = None
  ∨ deref st (_credentials st) !! "api_key" = None →
  deref (snd (get_credentials credentials_file st))
        (fst (get_credentials credentials_file st))
  = credentials_file.
Proof.
  intros Hmiss. unfold get_credentials.
  assert (bool_decide (is_Some (deref st (_credentials st) !! "username"))
          && bool_decide (is_Some (deref st (_credentials st) !! "api_key"))
          = false) as ->.
  { apply andb_false_iff.
    destruct Hmiss as [H|H]; [left | right];
      apply bool_decide_eq_false; rewrite H; by intros [? ?]. }
  unfold deref at 1. by rewrite ModuleStateFacts.alloc_holds.
Qed.

(** X26: [update_plot_options] and [get_plot_options] round trip: the
    copy handed out afterwards holds the keywords given, over what the
    process-wide options held before. *)
Theorem update_then_get_plot_options st kwargs :
  bound st →
  let st1 := update_plot_options kwargs st in
  deref (snd (get_plot_options st1)) (fst (get_plot_options st1))
  = kwargs ∪ deref st (_plot_options st).
Proof.
  intros [_ [o Ho]] st1. unfold get_plot_options. rewrite deref_copy.
  unfold st1, update_plot_options. cbn [_plot_options set_heap].
  rewrite deref_alter, Ho. unfold deref. by rewrite Ho.
Qed.

(** X27: two calls of [update_plot_options] amount to one call with the
    later keywords laid over the earlier ones: options accumulate, and a
    key given twice keeps its later value. *)
Theorem update_plot_options_accumulates st a b :
  update_plot_options b (update_plot_options a st)
  = update_plot_options (b ∪ a) st.
Proof.
  unfold update_plot_options. cbn [_plot_options heap set_heap]. f_equal.
  rewrite alter_alter_eq. apply alter_ext.
  intros d _. simpl. by rewrite (assoc_L (∪)).
Qed.

(** X28: the two pieces of module state are kept apart: signing in leaves
    the plot options as they are, and updating the plot options leaves the
    credentials as they are. *)
Theorem sign_in_and_update_plot_options_are_independent
    st username api_key kwargs :
  _credentials st ≠ _plot_options st →
  deref (sign_in username api_key st) (_plot_options st)
  = deref st (_plot_options st)
  ∧ deref (update_plot_options kwargs st) (_credentials st)
    = deref st (_credentials st).
Proof.
  intros Hne. unfold deref, sign_in, update_plot_options. simpl.
  by rewrite !lookup_alter_ne.
Qed.

End ModuleStateMore.

(** ** The further properties on sample data *)

Lemma session_key_from_one_source_witness :
  (@_credentials Sample.signed_in !! "username" = Some (PyStr "demo")
   ∧ @_credentials Sample.signed_in !! "api_key" = Some (PyStr "secret"))
  ∨ (@tools_get_credentials_file
       (Sample.externals (Sample.reply 200 Sample.ok_text)) !! "username"
     = Some (PyStr "demo")
     ∧ @tools_get_credentials_file
         (Sample.externals (Sample.reply 200 Sample.ok_text)) !! "api_key"
       = Some (PyStr "secret")).
Proof.
  apply (@session_key_from_one_source
           (Sample.externals (Sample.reply 200 Sample.ok_text))
           Sample.signed_in (PyStr "demo") (PyStr "secret")).
  vm_compute. reflexivity.
Defined.

Lemma validation_key_per_key_witness :
  Some (PyStr "demo")
  = match @_credentials Sample.signed_in !! "username" with
    | Some v => Some v
    | None => @tools_get_credentials_file
                (Sample.externals (Sample.reply 200 Sample.ok_text))
                !! "username"
    end
  ∧ Some (PyStr "secret")
    = match @_credentials Sample.signed_in !! "api_key" with
      | Some v => Some v
      | None => @tools_get_credentials_file
                  (Sample.externals (Sample.reply 200 Sample.ok_text))
                  !! "api_key"
      end
  ∧ PyStr "demo" ≠ PyNone ∧ PyStr "secret" ≠ PyNone.
Proof.
  apply (@validation_key_per_key
           (Sample.externals (Sample.reply 200 Sample.ok_text))
           Sample.signed_in (PyStr "demo") (PyStr "secret")).
  vm_compute. reflexivity.
Defined.

Lemma credential_resolvers_agree_witness :
  @_get_session_username_and_key
    (Sample.externals (Sample.reply 200 Sample.ok_text)) Sample.signed_in
  = ret (PyStr "demo", PyStr "secret")
  ∧ @_validation_key_logic
      (Sample.externals (Sample.reply 200 Sample.ok_text)) Sample.signed_in
    = ret (PyStr "demo", PyStr "secret").
Proof.
  apply (@credential_resolvers_agree
           (Sample.externals (Sample.reply 200 Sample.ok_text))
           Sample.signed_in (PyStr "demo") (PyStr "secret")).
  - vm_compute. reflexivity.
  - vm_compute. reflexivity.
  - discriminate.
  - discriminate.
Defined.

Lemma no_username_no_credentials_witness :
  @_get_session_username_and_key
    (Sample.externals (Sample.reply 200 Sample.ok_text)) Cases.signed_out
  = raise PlotlyLocalCredentialsError
  ∧ @_validation_key_logic
      (Sample.externals (Sample.reply 200 Sample.ok_text)) Cases.signed_out
    = raise PlotlyLocalCredentialsError.
Proof.
  apply (@no_username_no_credentials
           (Sample.externals (Sample.reply 200 Sample.ok_text))
           Cases.signed_out).
  - vm_compute. reflexivity.
  - vm_compute. reflexivity.
Defined.

Lemma plot_dict_without_data_witness :
  @plot (Sample.externals (Sample.reply 200 Sample.ok_text)) Sample.signed_in
    (PyDict (<["layout" := PyDict ∅]> ∅)) false ∅
  = raise (KeyError "data").
Proof.
  apply (@plot_dict_without_data
           (Sample.externals (Sample.reply 200 Sample.ok_text))
           Sample.signed_in (<["layout" := PyDict ∅]> ∅) false ∅).
  - vm_compute. reflexivity.
  - left. reflexivity.
Defined.

Lemma send_to_plotly_needs_credentials_witness :
  let send :=
    @_send_to_plotly (Sample.externals (Sample.reply 200 Sample.ok_text))
      Cases.signed_out Sample.scatter_trace
      (_plot_option_logic ∅ ∅) in
  without is_post send
  ∧ (outcome send = Raise PlotlyLocalCredentialsError
     ∨ (is_Some (_plot_option_logic ∅ ∅ !! "figure")
        ∧ outcome send = Raise TypeError)).
Proof.
  apply (@send_to_plotly_needs_credentials
           (Sample.externals (Sample.reply 200 Sample.ok_text))
           Cases.signed_out Sample.scatter_trace (_plot_option_logic ∅ ∅)
           PlotlyLocalCredentialsError).
  vm_compute. reflexivity.
Defined.

Lemma plot_raises_without_opening_url_witness :
  without is_open_url
    (@plot (Sample.externals (Sample.reply 200 Sample.error_text))
       Sample.signed_in (PyList [PyDict Sample.scatter_trace]) true ∅).
Proof.
  apply (@plot_raises_without_opening_url
           (Sample.externals (Sample.reply 200 Sample.error_text))
           Sample.signed_in (PyList [PyDict Sample.scatter_trace]) true ∅
           (PlotlyAccountError (PyStr "Aw, snap!"))).
  vm_compute. reflexivity.
Defined.

Lemma plot_auto_open_false_opens_nothing_witness :
  without is_open_url
    (@plot (Sample.externals (Sample.reply 200 Sample.ok_text))
       Sample.signed_in (PyList [PyDict Sample.scatter_trace]) true
       (<["auto_open" := PyBool false]> ∅)).
Proof.
  apply (@plot_auto_open_false_opens_nothing
           (Sample.externals (Sample.reply 200 Sample.ok_text))
           Sample.signed_in (PyList [PyDict Sample.scatter_trace]) true
           (<["auto_open" := PyBool false]> ∅) (PyBool false)).
  - vm_compute. reflexivity.
  - reflexivity.
Defined.

Lemma plot_prints_server_error_witness :
  ∃ url data l1 l2,
    log (@plot (Sample.externals (Sample.reply 200 Sample.error_text))
           Sample.signed_in (PyList [PyDict Sample.scatter_trace]) true ∅)
    = l1 ++ HttpPost url data None :: Print (PyStr "Aw, snap!") :: l2.
Proof.
  eexists _, _.
  eapply (@plot_prints_server_error
            (Sample.externals (Sample.reply 200 Sample.error_text))
            Sample.signed_in _ _ _ _ _ _
            (Sample.reply 200 Sample.error_text) Sample.error_reply).
  - run_log. left. reflexivity.
  - reflexivity.
  - unfold status_ok. simpl. lia.
  - vm_compute. reflexivity.
  - vm_compute. reflexivity.
  - discriminate.
Defined.

Lemma plot_opens_url_once_witness :
  List.filter is_open_url
    (log (@plot (Sample.externals (Sample.reply 200 Sample.ok_text))
            Sample.signed_in (PyList [PyDict Sample.scatter_trace]) true ∅))
  = if truthy (PyBool true)
    then [OpenUrl (PyStr "https://plot.ly/~demo/1")] else [].
Proof.
  eapply (@plot_opens_url_once
            (Sample.externals (Sample.reply 200 Sample.ok_text))
            Sample.signed_in _ _ _ _ _ _
            (Sample.reply 200 Sample.ok_text) Sample.ok_reply).
  - run_log. left. reflexivity.
  - reflexivity.
  - unfold status_ok. simpl. lia.
  - vm_compute. reflexivity.
  - vm_compute. reflexivity.
  - vm_compute. reflexivity.
  - vm_compute. reflexivity.
Defined.

Lemma write_sends_untyped_line_witness :
  let Ext := Sample.externals (Sample.reply 200 Sample.ok_text) in
  let trace : gmap string pyval :=
    <["type" := PyStr "bar"]> Sample.scatter_trace in
  let reconnect_on := [PyInt 200; PyStr EmptyString; PyInt 408] in
  let line := json_dumps (PyDict (sent_object trace None)) +:+ newline in
  sent_object trace None !! "type" = None
  ∧ (∀ lay, @None pyval = Some lay →
       sent_object trace None !! "layout" = Some lay)
  ∧ (∀ k, k ≠ "type" → @None pyval = None ∨ k ≠ "layout" →
       sent_object trace None !! k = trace !! k)
  ∧ @Stream_write Ext Sample.socket Cases.opened trace None false reconnect_on
    = (@set__stream Sample.socket Cases.opened
         (fst (@chunked_write Sample.socket [] line reconnect_on)),
       reported write_not_open_msg
         (snd (@chunked_write Sample.socket [] line reconnect_on))).
Proof.
  intros Ext trace reconnect_on line.
  apply (@write_sends_untyped_line Ext Sample.socket Cases.opened []
           trace None false reconnect_on).
  - reflexivity.
  - left. reflexivity.
Defined.

Lemma opened_stream_stays_opened_witness :
  let Ext := Sample.externals (Sample.reply 200 Sample.ok_text) in
  let self := @after_calls Ext Sample.socket Cases.opened
                [CallClose; CallOpen; CallClose] in
  ∃ c,
    @_stream Sample.socket self = Some c
    ∧ @Stream_close Sample.socket self
      = (set__stream self (fst (chunked_close c)),
         reported close_not_open_msg (snd (chunked_close c)))
    ∧ (∀ trace layout validate reconnect_on,
         validate = false ∨ @passes_validation Ext trace layout →
         @Stream_write Ext Sample.socket self trace layout validate
           reconnect_on
         = (set__stream self
              (fst (chunked_write c
                      (json_dumps (PyDict (sent_object trace layout))
                       +:+ newline)
                      reconnect_on)),
            reported write_not_open_msg
              (snd (chunked_write c
                      (json_dumps (PyDict (sent_object trace layout))
                       +:+ newline)
                      reconnect_on)))).
Proof.
  intros Ext self.
  apply (@opened_stream_stays_opened Ext Sample.socket Cases.opened
           [CallClose; CallOpen; CallClose]).
  eexists. reflexivity.
Defined.

Lemma image_get_invalid_format_witness :
  @image_get (Sample.externals Cases.png_reply) Sample.signed_in
    (PyList [PyDict Sample.scatter_trace]) (PyStr "gif") None None
  = raise (PlotlyError (PyStr invalid_format_msg))
  ∧ log (@image_get (Sample.externals Cases.png_reply) Sample.signed_in
           (PyList [PyDict Sample.scatter_trace]) (PyStr "gif") None None)
    = [].
Proof.
  apply (@image_get_invalid_format (Sample.externals Cases.png_reply)
           Sample.signed_in (PyList [PyDict Sample.scatter_trace])
           (PyStr "gif") None None).
  reflexivity.
Defined.

Lemma image_get_returns_image_witness :
  outcome (@image_get (Sample.externals Cases.png_reply) Sample.signed_in
             (PyList [PyDict Sample.scatter_trace]) (PyStr "png") None None)
  = Return (PyStr (content Cases.png_reply)).
Proof.
  eapply (@image_get_returns_image (Sample.externals Cases.png_reply)
            Sample.signed_in _ _ _ _ _ _ _ Cases.png_reply "image/png").
  - run_log. left. reflexivity.
  - reflexivity.
  - reflexivity.
  - vm_compute. reflexivity.
  - left. reflexivity.
Defined.

Lemma image_get_untyped_reply_returns_None_witness :
  ∃ url data hdrs,
    @image_get (Sample.externals Cases.bare_reply) Sample.signed_in
      (PyList [PyDict Sample.scatter_trace]) (PyStr "png") None None
    = ([HttpPost url data hdrs], Return PyNone).
Proof.
  eexists _, _, _.
  eapply (@image_get_untyped_reply_returns_None
            (Sample.externals Cases.bare_reply) Sample.signed_in
            _ _ _ _ _ _ _ Cases.bare_reply).
  - run_log. left. reflexivity.
  - reflexivity.
  - reflexivity.
  - vm_compute. reflexivity.
Defined.


Lemma save_as_bare_name_fails_witness :
  @save_as (Sample.externals Cases.png_reply) Sample.signed_in
    Cases.splitext (PyList [PyDict Sample.scatter_trace]) "plot" PyNone
    None None
  = raise (PlotlyError (PyStr invalid_format_msg)).
Proof.
  apply (@save_as_bare_name_fails (Sample.externals Cases.png_reply)
           Sample.signed_in Cases.splitext
           (PyList [PyDict Sample.scatter_trace]) "plot" "plot" PyNone
           None None).
  - vm_compute. reflexivity.
  - reflexivity.
Defined.

Lemma save_as_appends_format_witness :
  "plot.png.png" = "plot.png" +:+ "." +:+ "png"
  ∧ outcome (@image_get (Sample.externals Cases.png_reply) Sample.signed_in
               (PyList [PyDict Sample.scatter_trace]) (PyStr "png")
               None None)
    = Return (PyStr "PNG").
Proof.
  apply (@save_as_appends_format (Sample.externals Cases.png_reply)
           Sample.signed_in Cases.splitext
           (PyList [PyDict Sample.scatter_trace]) "plot.png" "png"
           None None "plot.png.png" (PyStr "PNG")).
  - discriminate.
  - vm_compute. reflexivity.
Defined.

Lemma append_rows_extends_every_column_witness :
  let rows := [[PyInt 3; PyInt 30]; [PyInt 4; PyInt 40]] in
  let g := Cases.two_columns in
  let store := Cases.two_lists in
  let store' := extend_columns (Grid_columns g) rows store in
  Forall (fun row => length row = length (Grid_columns g)) rows
  ∧ (∀ j col, Grid_columns g !! j = Some col →
       column_data store' col
       = column_data store col
         ++ repeat (PyStr EmptyString)
              (longest_column store (Grid_columns g)
               - length (column_data store col))
         ++ column_of_rows j rows
       ∧ length (column_data store' col)
         = longest_column store (Grid_columns g) + length rows)
  ∧ (∀ l, ¬ In l (map Column_data (Grid_columns g)) →
       store' !! l = store !! l).
Proof.
  intros rows g store store'.
  apply (@append_rows_extends_every_column
           (Sample.externals (Sample.reply 200 Sample.ok_text))
           Sample.signed_in rows g None None store store').
  - discriminate.
  - split.
    + simpl. apply NoDup_cons_2; [|apply NoDup_singleton].
      intros H. apply list_elem_of_In in H. simpl in H.
      destruct H as [H|[]]. discriminate.
    + repeat constructor; eexists; reflexivity.
  - vm_compute. reflexivity.
Defined.

(** When two columns hold one and the same list the update is still in
    place: the shared list takes the share of both columns. *)
Lemma append_rows_shared_list :
  column_data
    (extend_columns (Grid_columns Cases.shared_columns)
       [[PyInt 3; PyInt 30]] (<[1%positive := [PyInt 1]]> ∅))
    {| Column_name := "a"; Column_data := 1%positive;
       Column_id := PyStr "demo:10/a1" |}
  = [PyInt 1; PyInt 3; PyInt 30].
Proof. vm_compute. reflexivity. Qed.

Lemma sign_in_then_get_credentials_witness :
  let st1 := ModuleState.sign_in (ModuleState.Imm (PyStr "demo"))
               (ModuleState.Imm (PyStr "secret")) ModuleState.initial in
  ModuleState.deref (snd (ModuleState.get_credentials ∅ st1))
    (fst (ModuleState.get_credentials ∅ st1))
  = <["api_key" := ModuleState.Imm (PyStr "secret")]>
      (<["username" := ModuleState.Imm (PyStr "demo")]>
         (ModuleState.deref ModuleState.initial
            (ModuleState._credentials ModuleState.initial))).
Proof.
  apply (ModuleStateMore.sign_in_then_get_credentials ModuleState.initial
           (ModuleState.Imm (PyStr "demo"))
           (ModuleState.Imm (PyStr "secret")) ∅).
  split; eexists; reflexivity.
Defined.

Lemma get_credentials_falls_back_to_file_witness :
  let file : gmap string ModuleState.hval :=
    <["username" := ModuleState.Imm (PyStr "filed")]> ∅ in
  ModuleState.deref (snd (ModuleState.get_credentials file ModuleState.initial))
    (fst (ModuleState.get_credentials file ModuleState.initial))
  = file.
Proof.
  intros file.
  apply (ModuleStateMore.get_credentials_falls_back_to_file
           ModuleState.initial file).
  left. vm_compute. reflexivity.
Defined.

Lemma update_then_get_plot_options_witness :
  let kwargs : gmap string ModuleState.hval :=
    <["fileopt" := ModuleState.Imm (PyStr "extend")]> ∅ in
  let st1 := ModuleState.update_plot_options kwargs ModuleState.initial in
  ModuleState.deref (snd (ModuleState.get_plot_options st1))
    (fst (ModuleState.get_plot_options st1))
  = kwargs ∪ ModuleState.deref ModuleState.initial
               (ModuleState._plot_options ModuleState.initial).
Proof.
  intros kwargs.
  apply (ModuleStateMore.update_then_get_plot_options
           ModuleState.initial kwargs).
  split; eexists; reflexivity.
Defined.

Lemma sign_in_and_update_plot_options_are_independent_witness :
  let st := ModuleState.initial in
  ModuleState.deref
    (ModuleState.sign_in (ModuleState.Imm (PyStr "demo"))
       (ModuleState.Imm (PyStr "secret")) st)
    (ModuleState._plot_options st)
  = ModuleState.deref st (ModuleState._plot_options st)
  ∧ ModuleState.deref
      (ModuleState.update_plot_options
         (<["fileopt" := ModuleState.Imm (PyStr "extend")]> ∅) st)
      (ModuleState._credentials st)
    = ModuleState.deref st (ModuleState._credentials st).
Proof.
  intros st.
  apply (ModuleStateMore.sign_in_and_update_plot_options_are_independent
           st (ModuleState.Imm (PyStr "demo"))
           (ModuleState.Imm (PyStr "secret"))
           (<["fileopt" := ModuleState.Imm (PyStr "extend")]> ∅)).
  discriminate.
Defined.
